(** * pysar/generate_kmz_timeseries.py

    A shallow embedding of the time-series-to-KMZ converter and the
    properties of its raster-to-placemark pipeline.

    Modelling conventions.
    - A Python/NumPy float is an exact rational ([Q]); equality of numbers is
      [Qeq] ([==]).  Rounding error of the binary representation is outside
      the model.
    - The velocity raster holds [option Q] cells: [None] is NaN, the marker of
      a missing value, and [np.isnan] is the test for [None].  The
      time-series raster holds numbers.
    - A 2D array is a list of rows; NumPy's boolean-mask indexing scans it in
      row-major order.
    - A Python exception is a value of [PyErr]; a computation that can raise
      returns a [result].  Printing, figure saving, file writing and shell
      commands are events appended to a log.
    - NumPy, Matplotlib and pykml are libraries outside the repository: the
      functions used by the script ([np.mgrid], [np.min], [Normalize],
      [get_cmap], [to_hex], ...) are written out after the libraries'
      implementations; the table of registered colormaps, the printing of a
      float and the XML serialiser are parameters.
    - The [Normalize] object of [main] is shared: [ColorbarBase] rewrites its
      limits in place, and the loop over the pixels calls the object with the
      limits it then has.  The rewrite is a function from the limits as
      built to the limits as left, and the loop reads the latter. *)

From Stdlib Require Import ZArith QArith Qround Qabs Qminmax List String Ascii Bool Lia Lqa.
From Stdlib Require Import HexString DecimalString.
Import ListNotations.

Local Open Scope Q_scope.

(** ** Arrays *)

Definition Raster (A : Type) : Type := list (list A).

(** [arr.shape] of a list of rows: the length of each row. *)
Definition shape {A} (a : Raster A) : list nat := map (@List.length A) a.

(** Pointwise equality of number grids. *)
Definition row_eq (xs ys : list Q) : Prop := Forall2 Qeq xs ys.
Definition grid_eq (a b : Raster Q) : Prop := Forall2 row_eq a b.

(** [a[r][c]], with a default outside the array. *)
Definition cell_at (a : Raster Q) (r c : nat) : Q := nth c (nth r a []) 0.

(** ** Exceptions *)

Inductive PyErr : Type :=
| ValueError (msg : string)
| IndexError (msg : string)
| RecursionError (msg : string).

Inductive result (A : Type) : Type :=
| Ok (a : A)
| Raise (e : PyErr).
Arguments Ok {A} a.
Arguments Raise {A} e.

Definition rbind {A B} (m : result A) (k : A -> result B) : result B :=
  match m with
  | Ok a => k a
  | Raise e => Raise e
  end.

Notation "x <- m ;; k" := (rbind m (fun x => k))
  (at level 61, m at next level, right associativity).

(** ** get_lat_lon *)

(** The metadata entries read by [get_lat_lon], after [int(...)] and
    [float(...)]. *)
Record Metadata : Type := {
  LENGTH : Z;
  WIDTH : Z;
  Y_FIRST : Q;
  X_FIRST : Q;
  Y_STEP : Q;
  X_STEP : Q
}.

(** One axis of [np.mgrid[start:stop:n*1j]] (numpy.lib.index_tricks.nd_grid):
    the size is [int(abs(n*1j))]; the complex step is replaced by
    [(stop - start) / float(size - 1)] unless the size is 1, where it stays
    the integer 1; the value at index [k] is [k * step + start]. *)
Definition mgrid_size (n : Z) : nat := Z.to_nat (Z.abs n).

Definition mgrid_step (start stop : Q) (n : Z) : Q :=
  if (Z.abs n =? 1)%Z then 1
  else (stop - start) / inject_Z (Z.abs n - 1).

Definition mgrid_value (start stop : Q) (n : Z) (k : nat) : Q :=
  inject_Z (Z.of_nat k) * mgrid_step start stop n + start.

(** The dense 2D mesh: axis 0 varies along the rows, axis 1 along the
    columns ([np.indices] followed by the scaling above). *)
Definition mgrid2 (start0 stop0 : Q) (n0 : Z) (start1 stop1 : Q) (n1 : Z)
  : Raster Q * Raster Q :=
  let rows := seq 0 (mgrid_size n0) in
  let cols := seq 0 (mgrid_size n1) in
  (map (fun r => map (fun _ => mgrid_value start0 stop0 n0 r) cols) rows,
   map (fun _ => map (fun c => mgrid_value start1 stop1 n1 c) cols) rows).

Definition get_lat_lon (meta : Metadata) : Raster Q * Raster Q :=
  let lat_num := LENGTH meta in
  let lon_num := WIDTH meta in
  let lat0 := Y_FIRST meta in
  let lon0 := X_FIRST meta in
  let lat_step := Y_STEP meta in
  let lon_step := X_STEP meta in
  let lat1 := lat0 + lat_step * inject_Z lat_num in
  let lon1 := lon0 + lon_step * inject_Z lon_num in
  mgrid2 lat0 lat1 lat_num lon0 lon1 lon_num.

(** ** NumPy and Python helpers *)

(** [np.isnan] on a velocity cell. *)
Definition np_isnan (c : option Q) : bool :=
  match c with
  | None => true
  | Some _ => false
  end.

(** [~np.isnan(vel)]: true for valid pixels, false for invalid ones. *)
Definition valid_mask (vel : Raster (option Q)) : Raster bool :=
  map (map (fun c => negb (np_isnan c))) vel.

(** [a[mask]] for a 2D boolean mask: the mask must have the shape of the
    array, and the selected cells come out in row-major order. *)
Definition bool_index {A} (a : Raster A) (mask : Raster bool) : result (list A) :=
  if list_eq_dec Nat.eq_dec (shape a) (shape mask)
  then Ok (map fst (filter snd (combine (List.concat a) (List.concat mask))))
  else Raise (IndexError "boolean index did not match indexed array").

(** The numbers of [vel[mask]]: the cells that are not NaN, in row-major
    order. *)
Definition number_of (c : option Q) : list Q :=
  match c with
  | Some q => [q]
  | None => []
  end.

Definition select_valid (vel : Raster (option Q)) : list Q :=
  flat_map number_of (List.concat vel).

(** [x * 100]: metres to centimetres. *)
Definition to_cm (x : Q) : Q := x * 100.

(** The smallest and largest element, the first one among equal ones. *)
Definition least (xs : list Q) (x0 : Q) : Q :=
  fold_left (fun m x => match x ?= m with Lt => x | _ => m end) xs x0.

Definition greatest (xs : list Q) (x0 : Q) : Q :=
  fold_left (fun m x => match x ?= m with Gt => x | _ => m end) xs x0.

(** [np.min] and [np.max] of a 2D array: a reduction over every cell, which
    raises on an array without cells. *)
Definition np_min (a : Raster Q) : result Q :=
  match List.concat a with
  | [] => Raise (ValueError
      "zero-size array to reduction operation minimum which has no identity")
  | x :: xs => Ok (least xs x)
  end.

Definition np_max (a : Raster Q) : result Q :=
  match List.concat a with
  | [] => Raise (ValueError
      "zero-size array to reduction operation maximum which has no identity")
  | x :: xs => Ok (greatest xs x)
  end.

(** The builtins [min] and [max] on a sequence. *)
Definition py_min (xs : list Q) : result Q :=
  match xs with
  | [] => Raise (ValueError "min() arg is an empty sequence")
  | x :: xs' => Ok (least xs' x)
  end.

Definition py_max (xs : list Q) : result Q :=
  match xs with
  | [] => Raise (ValueError "max() arg is an empty sequence")
  | x :: xs' => Ok (greatest xs' x)
  end.

(** [xs[i]]. *)
Definition list_get {A} (xs : list A) (i : nat) : result A :=
  match nth_error xs i with
  | Some x => Ok x
  | None => Raise (IndexError "index out of range")
  end.

(** [range(start, stop, step)] for a positive step; the length is the one
    CPython computes. *)
Definition range_length (start stop step : nat) : nat :=
  if (start <? stop)%nat then ((stop - start - 1) / step + 1)%nat else 0%nat.

Definition py_range (start stop step : nat) : list nat :=
  map (fun k => (start + k * step)%nat) (seq 0 (range_length start stop step)).

(** A loop whose body can raise: the bodies run in order and the first
    exception ends the loop. *)
Fixpoint for_each {A B} (body : A -> result B) (xs : list A) : result (list B) :=
  match xs with
  | [] => Ok []
  | x :: xs' =>
      y <- body x ;;
      ys <- for_each body xs' ;;
      Ok (y :: ys)
  end.

(** The builtin [round] on a float: to the nearest integer, a tie to the
    even one. *)
Definition py_round (x : Q) : Z :=
  let f := Qfloor x in
  match ((x - inject_Z f) ?= (1 # 2))%Q with
  | Lt => f
  | Gt => (f + 1)%Z
  | Eq => if Z.even f then f else (f + 1)%Z
  end.

(** ** Strings *)

Local Open Scope string_scope.

(** The double quote and the line feed, which a string literal cannot hold. *)
Definition dq : string := String (ascii_of_nat 34) EmptyString.
Definition nl : string := String (ascii_of_nat 10) EmptyString.

(** [s[1:]]. *)
Definition drop_first (s : string) : string :=
  match s with
  | EmptyString => EmptyString
  | String _ rest => rest
  end.

(** [format(n, "02x")]: lowercase hexadecimal digits, padded with zeros to
    two characters, the sign of a negative number counting as one. *)
Definition hex_digits (n : N) : string :=
  match n with
  | N0 => "0"
  | Npos p => HexString.Raw.of_pos p ""
  end.

Definition format_02x (n : Z) : string :=
  if (n <? 0)%Z then "-" ++ hex_digits (Z.to_N (- n))
  else
    let ds := hex_digits (Z.to_N n) in
    if (String.length ds <? 2)%nat then "0" ++ ds else ds.

(** A character of [0-9a-f]. *)
Definition is_lower_hex (c : ascii) : bool :=
  let n := nat_of_ascii c in
  ((48 <=? n) && (n <=? 57) || (97 <=? n) && (n <=? 102))%nat.

Fixpoint all_chars (p : ascii -> bool) (s : string) : bool :=
  match s with
  | EmptyString => true
  | String c rest => p c && all_chars p rest
  end.

(** ** Matplotlib *)

(** The tuple returned by a colormap: [rgba[0]] red, [rgba[1]] green,
    [rgba[2]] blue, [rgba[3]] alpha. *)
Record RGBA : Type := {
  red : Q;
  green : Q;
  blue : Q;
  alpha : Q
}.

Definition Colormap : Type := Q -> RGBA.

(** [mpl.colors.Normalize(vmin, vmax)], with [clip] left at False. *)
Record Normalize : Type := {
  vmin : Q;
  vmax : Q
}.

(** [Normalize.__call__]: 0 when the bounds coincide, an exception when
    they are reversed, the linear map otherwise; nothing is clipped. *)
Definition Normalize_call (norm : Normalize) (value : Q) : result Q :=
  if Qeq_bool (vmin norm) (vmax norm) then Ok 0%Q
  else
    match (vmin norm ?= vmax norm)%Q with
    | Gt => Raise (ValueError "minvalue must be less than or equal to maxvalue")
    | _ => Ok ((value - vmin norm) / (vmax norm - vmin norm))%Q
    end.

(** [mtransforms.nonsingular(vmin, vmax, expander=0.1)], with [tiny] at its
    default 1e-15 and [increasing] at its default True: limits in the wrong
    order are swapped (and stay so), limits of negligible magnitude become
    (-expander, expander), limits too close to each other are pushed apart. *)
Definition Qlt_bool (x y : Q) : bool := negb (Qle_bool y x).

Definition expander : Q := 1 # 10.
Definition tiny : Q := 1 # 1000000000000000.

(** [np.finfo(float).tiny], the smallest normal double, 2^-1022. *)
Definition float_tiny : Q := 1 # (2 ^ 1022).

(** [(1e6 / tiny) * np.finfo(float).tiny]. *)
Definition magnitude_floor : Q := (1000000 / tiny) * float_tiny.

Definition nonsingular (vmin vmax : Q) : Q * Q :=
  let swapped := Qlt_bool vmax vmin in
  let '(vmin, vmax) := if swapped then (vmax, vmin) else (vmin, vmax) in
  let maxabsvalue := Qmax (Qabs vmin) (Qabs vmax) in
  if Qlt_bool maxabsvalue ((1000000 / tiny) * float_tiny) then (- expander, expander)
  else if Qle_bool (vmax - vmin) (maxabsvalue * tiny) then
    if Qeq_bool vmax 0 && Qeq_bool vmin 0 then (- expander, expander)
    else (vmin - expander * Qabs vmin, vmax + expander * Qabs vmax)
  else (vmin, vmax).

(** [Colorbar._process_values] on the norm of the colorbar:
    [norm.vmin, norm.vmax = nonsingular(norm.vmin, norm.vmax, expander=0.1)].
    The two assignments go through the setters of [Normalize]: a setter
    stores a value that differs from the current one and notifies the
    colorbar, which processes its values again before the next assignment
    is made.  [depth] bounds the nesting of these calls, as the recursion
    limit of the interpreter does. *)
Fixpoint process_values (depth : nat) (norm : Normalize) : result Normalize :=
  match depth with
  | O => Raise (RecursionError "maximum recursion depth exceeded")
  | S depth' =>
      let lims := nonsingular (vmin norm) (vmax norm) in
      norm1 <- (if Qeq_bool (fst lims) (vmin norm) then Ok norm
                else process_values depth' {| vmin := fst lims; vmax := vmax norm |}) ;;
      if Qeq_bool (snd lims) (vmax norm1) then Ok norm1
      else process_values depth' {| vmin := vmin norm1; vmax := snd lims |}
  end.

(** The nesting allowed to [process_values]; three levels are enough for
    any limits ([process_values_returns] below). *)
Definition callback_depth : nat := 100.

(** Limits that [nonsingular] returns as they are: in order, not of
    negligible magnitude, and not too close to each other. *)
Definition proper (x y : Q) : Prop :=
  x <= y /\
  magnitude_floor <= Qmax (Qabs x) (Qabs y) /\
  Qmax (Qabs x) (Qabs y) * tiny < y - x.

(** [mpl.colors.to_rgba] on a sequence of numbers: three or four
    components, each within 0-1; a missing alpha is 1. *)
Definition in_unit (x : Q) : bool := Qle_bool 0 x && Qle_bool x 1.

Definition to_rgba (c : list Q) : result (list Q) :=
  match c with
  | [_; _; _] | [_; _; _; _] =>
      if forallb in_unit c
      then Ok (if (List.length c =? 3)%nat then (c ++ [1%Q])%list else c)
      else Raise (ValueError "RGBA values should be within 0-1 range")
  | _ => Raise (ValueError "Invalid RGBA argument")
  end.

(** [mpl.colors.to_hex]: "#" and two hexadecimal digits per channel of
    [round(val * 255)]. *)
Definition to_hex (c : list Q) (keep_alpha : bool) : result string :=
  c' <- to_rgba c ;;
  let c'' := if keep_alpha then c' else firstn 3 c' in
  Ok ("#" ++ String.concat "" (map (fun val => format_02x (py_round (val * 255))) c'')).

(** The colour of a placemark icon: the components reversed for the KML
    colour specification, without the leading "#". *)
Definition kml_color (rgba : RGBA) : result string :=
  h <- to_hex [alpha rgba; blue rgba; green rgba; red rgba] true ;;
  Ok (drop_first h).

(** ** KML elements *)

(** An element built by the pykml factory: tag, attributes, text and
    children. *)
Unset Elimination Schemes.
Inductive Xml : Type :=
| Element (tag : string) (attrs : list (string * string)) (text : string)
          (children : list Xml).
Set Elimination Schemes.

Definition leaf (tag text : string) : Xml := Element tag [] text [].
Definition node (tag : string) (children : list Xml) : Xml :=
  Element tag [] "" children.

Definition xml_tag (x : Xml) : string := let 'Element t _ _ _ := x in t.
Definition xml_text (x : Xml) : string := let 'Element _ _ s _ := x in s.
Definition xml_children (x : Xml) : list Xml := let 'Element _ _ _ cs := x in cs.

(** The first child with a given tag. *)
Definition child (tag : string) (x : Xml) : option Xml :=
  find (fun c => String.eqb (xml_tag c) tag) (xml_children x).

(** The text at the end of a path of tags. *)
Fixpoint text_at (path : list string) (x : Xml) : option string :=
  match path with
  | [] => Some (xml_text x)
  | t :: rest =>
      match child t x with
      | Some c => text_at rest c
      | None => None
      end
  end.

(** ** What the libraries leave open *)

Class Platform : Type := {
  (** [str(x)] and ["{}".format(x)] of a NumPy float *)
  float_str : Q -> string;
  (** the colormaps registered under a name in Matplotlib *)
  registered : string -> option Colormap;
  (** [etree.tostring(kml, pretty_print=True).decode('utf-8')] *)
  etree_tostring : Xml -> string
}.

(** [mpl.cm.get_cmap(name)]. *)
Definition get_cmap {P : Platform} (name : string) : result Colormap :=
  match registered name with
  | Some f => Ok f
  | None => Raise (ValueError ("Colormap " ++ name ++ " is not recognized"))
  end.

(** ** Effects *)

Inductive Event : Type :=
| Print (line : string)
| SaveFig (file : string)
| System (command : string)
| WriteFile (file content : string).

(** A step of [main]: it extends the log of events and returns or raises. *)
Definition M (A : Type) : Type := list Event -> list Event * result A.

Definition ret {A} (a : A) : M A := fun log => (log, Ok a).

Definition bind {A B} (m : M A) (k : A -> M B) : M B :=
  fun log =>
    match m log with
    | (log', Ok a) => k a log'
    | (log', Raise e) => (log', Raise e)
    end.

Definition lift {A} (r : result A) : M A := fun log => (log, r).

Definition emit (e : Event) : M unit := fun log => ((log ++ [e])%list, Ok tt).

Notation "x <~ m ;; k" := (bind m (fun x => k))
  (at level 61, m at next level, right associativity).
Notation "m ;;; k" := (bind m (fun _ => k))
  (at level 61, right associativity).

(** An event that leaves something on disk. *)
Definition is_output (e : Event) : bool :=
  match e with
  | Print _ => false
  | SaveFig _ | System _ | WriteFile _ _ => true
  end.

(** ** main *)

(** What the command line and the readers deliver. *)
Record Inputs : Type := {
  (** [plot.auto_figure_title(inps.ts_file, ...)] *)
  out_name_base : string;
  (** [os.path.dirname(__file__)] *)
  script_dir : string;
  (** [inps.vlim] *)
  vlim : option (Q * Q);
  (** [inps.colormap] *)
  colormap : option string;
  (** [ts_obj.metadata] *)
  metadata : Metadata;
  (** [ts_obj.times], each as [strftime("%Y-%m-%d")] prints it *)
  times : list string;
  (** [readfile.read(vel_file)[0]] *)
  vel_data : Raster (option Q);
  (** [readfile.read(ts_file)[0]], one raster per date *)
  ts_data : list (Raster Q)
}.

Definition dygraph_file : string := "dygraph-combined.js".
Definition dot_file : string := "shaded_dot.png".
Definition cbar_png_file (inps : Inputs) : string := out_name_base inps ++ "_cbar.png".
Definition kml_file (inps : Inputs) : string := out_name_base inps ++ ".kml".
Definition kmz_file (inps : Inputs) : string := out_name_base inps ++ ".kmz".

(** The variables of [main] that the loop reads. *)
Record Data : Type := {
  dates : list string;
  vel : list Q;
  ts : Raster Q;
  ts_min : Q;
  ts_max : Q;
  norm : Normalize;
  cmap : string;
  coords : list (Q * Q)
}.

(** Lines 80-114: dates, masked and scaled velocity and time series, the
    chart range, the colour limits, the colormap name and the coordinates;
    [norm] is the [Normalize] that line 120 builds from the colour limits. *)
Definition read_data (inps : Inputs) : result Data :=
  let dates := times inps in
  let mask := valid_mask (vel_data inps) in
  let vel := map to_cm (select_valid (vel_data inps)) in
  ts <- for_each (fun a => row <- bool_index a mask ;; Ok (map to_cm row))
                 (ts_data inps) ;;
  ts_min <- np_min ts ;;
  ts_max <- np_max ts ;;
  lim <- match vlim inps with
         | None =>
             min_vel <- py_min vel ;;
             max_vel <- py_max vel ;;
             Ok (min_vel, max_vel)
         | Some (lo, hi) => Ok (lo, hi)
         end ;;
  let cmap := match colormap inps with
              | None => "jet"
              | Some name => name
              end in
  lats <- bool_index (fst (get_lat_lon (metadata inps))) mask ;;
  lons <- bool_index (snd (get_lat_lon (metadata inps))) mask ;;
  Ok {| dates := dates; vel := vel; ts := ts; ts_min := ts_min; ts_max := ts_max;
        norm := {| vmin := fst lim; vmax := snd lim |}; cmap := cmap;
        coords := combine lats lons |}.

(** The data with the norm as the colorbar leaves it. *)
Definition set_norm (d : Data) (norm' : Normalize) : Data :=
  {| dates := dates d; vel := vel d; ts := ts d; ts_min := ts_min d;
     ts_max := ts_max d; norm := norm'; cmap := cmap d; coords := coords d |}.

(** Line 121: [ColorbarBase(cax, cmap=cmap, norm=norm, ...)] wraps the
    colormap and the norm in a [ScalarMappable], which resolves the colormap
    name through [get_cmap], and then draws itself, which rewrites the
    limits of the norm; the result is the norm as the call leaves it. *)
Definition ColorbarBase {P : Platform} (cmap : string) (norm : Normalize)
  : result Normalize :=
  match get_cmap cmap with
  | Ok _ => process_values callback_depth norm
  | Raise e => Raise e
  end.

(** Lines 117-127: the colorbar figure is built and saved; the loop will
    read the norm that [ColorbarBase] has rewritten. *)
Definition colorbar {P : Platform} (inps : Inputs) (d : Data) : M Data :=
  norm' <~ lift (ColorbarBase (cmap d) (norm d)) ;;
  emit (Print ("writing " ++ cbar_png_file inps)) ;;;
  emit (SaveFig (cbar_png_file inps)) ;;;
  ret (set_norm d norm').

(** Lines 135-146: the screen overlay of the colorbar. *)
Definition legend_overlay (inps : Inputs) : Xml :=
  node "ScreenOverlay"
    [ node "Icon" [leaf "href" (cbar_png_file inps); leaf "viewBoundScale" "0.75"];
      Element "overlayXY"
        [("x", "0"); ("y", "0"); ("xunits", "pixels"); ("yunits", "insetPixels")] "" [];
      Element "screenXY"
        [("x", "0"); ("y", "0"); ("xunits", "pixels"); ("yunits", "insetPixels")] "" [];
      Element "size"
        [("x", "350"); ("y", "0"); ("xunits", "pixel"); ("yunits", "pixel")] "" [];
      leaf "rotation" "0";
      leaf "visibility" "1";
      leaf "open" "0" ].

(** Lines 164-172. *)
Definition icon_style (hex : string) : Xml :=
  node "Style"
    [ node "IconStyle"
        [ leaf "color" hex; leaf "scale" "0.5"; node "Icon" [leaf "href" dot_file] ] ].

(** Lines 175-177: ["{},{}".format(lon, lat)]. *)
Definition point {P : Platform} (lon lat : Q) : Xml :=
  node "Point" [ leaf "coordinates" (float_str lon ++ "," ++ float_str lat) ].

(** Lines 180-185: the head of the script. *)
Definition js_head : string :=
  "< ![CDATA[" ++ nl ++
  "<script type='text/javascript' src='" ++ dygraph_file ++ "'></script>" ++ nl ++
  "<div id='graphdiv'> </div>" ++ nl ++
  "<script type='text/javascript'>" ++ nl ++
  "g = new Dygraph( document.getElementById('graphdiv')," ++ nl ++
  dq ++ "Date, Displacement\n" ++ dq ++ " + " ++ nl.

(** Line 191: one date and its displacement. *)
Definition date_displacement_string {P : Platform} (date : string) (displacement : Q)
  : string :=
  dq ++ date ++ ", " ++ float_str displacement ++ "\n" ++ dq ++ " + " ++ nl.

(** Lines 195-201: the chart options, with the shared value range. *)
Definition js_tail {P : Platform} (ts_min ts_max : Q) : string :=
  dq ++ dq ++ "," ++ nl ++
  "{" ++
  "valueRange: [" ++ float_str ts_min ++ "," ++ float_str ts_max ++ "]," ++
  "ylabel: '[cm]'," ++
  "});" ++
  "</script>" ++
  "]]>".

(** Lines 187-193: the rows of pixel [i], one per date. *)
Definition js_rows {P : Platform} (d : Data) (i : nat) : result (list string) :=
  for_each (fun j =>
              date <- list_get (dates d) j ;;
              row <- list_get (ts d) j ;;
              displacement <- list_get row i ;;
              Ok (date_displacement_string date displacement))
           (py_range 0 (List.length (dates d)) 1).

(** Lines 153-207: the placemark of pixel [i]. *)
Definition placemark {P : Platform} (d : Data) (i : nat) : result Xml :=
  c <- list_get (coords d) i ;;
  let lat := fst c in
  let lon := snd c in
  v <- list_get (vel d) i ;;
  colormap <- get_cmap (cmap d) ;;
  x <- Normalize_call (norm d) v ;;
  let rgba := colormap x in
  hex <- kml_color rgba ;;
  let style := icon_style hex in
  let point := point lon lat in
  rows <- js_rows d i ;;
  let js_data_string :=
    js_head ++ String.concat "" rows ++ js_tail (ts_min d) (ts_max d) in
  let description := leaf "description" js_data_string in
  Ok (node "Placemark" [style; description; point]).

(** Lines 152-210: one placemark for every tenth pixel. *)
Definition placemarks {P : Platform} (d : Data) : result (list Xml) :=
  for_each (placemark d) (py_range 0 (List.length (coords d)) 10).

(** Lines 130-212: the document, the overlay first. *)
Definition kml_document {P : Platform} (inps : Inputs) (d : Data) : result Xml :=
  pms <- placemarks d ;;
  Ok (node "kml" [node "Document" (legend_overlay inps :: pms)]).

(** Lines 215-239: the assets, the KML file, the archive and the clean-up. *)
Definition export {P : Platform} (inps : Inputs) (kml : Xml) : M unit :=
  let dot_path := script_dir inps ++ "/utils/" ++ dot_file in
  let cmdDot := "cp " ++ dot_path ++ " " ++ dot_file in
  emit (Print ("copying " ++ dot_file ++ " for reference." ++ nl)) ;;;
  emit (System cmdDot) ;;;
  let dygraph_path := script_dir inps ++ "/utils/" ++ dygraph_file in
  let cmdDygraph := "cp " ++ dygraph_path ++ " " ++ dygraph_file in
  emit (Print ("copying " ++ dygraph_file ++ " for reference" ++ nl)) ;;;
  emit (System cmdDygraph) ;;;
  emit (Print ("writing " ++ kml_file inps)) ;;;
  emit (WriteFile (kml_file inps) (etree_tostring kml)) ;;;
  let cmdKMZ := "zip " ++ kmz_file inps ++ " " ++ kml_file inps ++ " " ++
                cbar_png_file inps ++ " " ++ dygraph_file ++ " " ++ dot_file in
  emit (Print ("writing " ++ kmz_file inps ++ nl ++ cmdKMZ)) ;;;
  emit (System cmdKMZ) ;;;
  let cmdClean := "rm " ++ kml_file inps ++ " " ++ cbar_png_file inps ++ " " ++
                  dygraph_file ++ " " ++ dot_file in
  emit (Print cmdClean) ;;;
  emit (System cmdClean).

Definition main {P : Platform} (inps : Inputs) : M unit :=
  d0 <~ lift (read_data inps) ;;
  d <~ colorbar inps d0 ;;
  emit (Print "Creating KML file. This may take some time.") ;;;
  kml <~ lift (kml_document inps d) ;;
  export inps kml.

(** A run starts with an empty log. *)
Definition run {P : Platform} (inps : Inputs) : list Event * result unit :=
  main inps [].

(** The placemarks of a document, in document order. *)
Definition placemarks_of (kml : Xml) : list Xml :=
  flat_map (fun doc => filter (fun c => String.eqb (xml_tag c) "Placemark")
                              (xml_children doc))
           (xml_children kml).

(** ** A concrete platform and two concrete runs *)

(** A printer of numbers: a whole number with ".0", another one as a
    fraction. *)
Definition Z_str (z : Z) : string := DecimalString.NilZero.string_of_int (Z.to_int z).

Definition ratio_str (q : Q) : string :=
  let r := Qred q in
  if (Z.pos (Qden r) =? 1)%Z then Z_str (Qnum r) ++ ".0"
  else Z_str (Qnum r) ++ "/" ++ Z_str (Z.pos (Qden r)).

(** A grey ramp; like every Matplotlib colormap it maps a value below 0 as
    0 and a value above 1 as 1. *)
Definition clip01 (x : Q) : Q :=
  if Qle_bool x 0 then 0%Q else if Qle_bool 1 x then 1%Q else x.

Definition ramp : Colormap :=
  fun x => {| red := clip01 x; green := clip01 x; blue := (1 - clip01 x)%Q; alpha := 1%Q |}.

Definition ramp_only (name : string) : option Colormap :=
  if String.eqb name "jet" || String.eqb name "gray" then Some ramp else None.

(** A serialiser without indentation. *)
Definition attr_str (a : string * string) : string :=
  " " ++ fst a ++ "=" ++ dq ++ snd a ++ dq.

Fixpoint serialize (x : Xml) : string :=
  match x with
  | Element tag attrs text children =>
      "<" ++ tag ++ String.concat "" (map attr_str attrs) ++ ">" ++ text ++
      String.concat "" (map serialize children) ++ "</" ++ tag ++ ">"
  end.

Definition plain : Platform :=
  {| float_str := ratio_str; registered := ramp_only; etree_tostring := serialize |}.

(** The 3x3 grid: origin (10, 20), steps -1 and 1, every cell valid but the
    centre, two dates. *)
Definition grid3_meta : Metadata :=
  {| LENGTH := 3; WIDTH := 3; Y_FIRST := 10; X_FIRST := 20; Y_STEP := -1; X_STEP := 1 |}.

Definition grid3_vel : Raster (option Q) :=
  [ [Some (1 # 100); Some (2 # 100); Some (3 # 100)];
    [Some (4 # 100); None;           Some (6 # 100)];
    [Some (7 # 100); Some (8 # 100); Some (9 # 100)] ]%Q.

Definition grid3_ts : list (Raster Q) :=
  [ [ [0; 0; 0]; [0; 0; 0]; [0; 0; 0] ];
    [ [1 # 100; 2 # 100; 3 # 100]; [4 # 100; 5 # 100; 6 # 100];
      [7 # 100; 8 # 100; 9 # 100] ] ]%Q.

Definition grid3 : Inputs :=
  {| out_name_base := "timeseries"; script_dir := "/opt/pysar";
     vlim := None; colormap := None; metadata := grid3_meta;
     times := ["2010-01-01"; "2010-02-01"];
     vel_data := grid3_vel; ts_data := grid3_ts |}.

(** A 5x5 grid without missing cells, with explicit colour limits. *)
Definition grid5_cell (r c : nat) : Q := inject_Z (Z.of_nat (r * 5 + c)) / 1000.

Definition grid5_raster : Raster Q :=
  map (fun r => map (grid5_cell r) (seq 0 5)) (seq 0 5).

Definition grid5 : Inputs :=
  {| out_name_base := "ts5"; script_dir := ".";
     vlim := Some (0, 3)%Q; colormap := Some "gray";
     metadata := {| LENGTH := 5; WIDTH := 5; Y_FIRST := 35; X_FIRST := 139;
                    Y_STEP := - (1 # 10); X_STEP := 1 # 10 |};
     times := ["2011-03-11"];
     vel_data := map (map Some) grid5_raster; ts_data := [grid5_raster] |}.

(** The same 3x3 run with a colormap name that is not registered, and with
    every velocity missing. *)
Definition grid3_unknown : Inputs :=
  {| out_name_base := "timeseries"; script_dir := "/opt/pysar";
     vlim := None; colormap := Some "no_such_map"; metadata := grid3_meta;
     times := ["2010-01-01"; "2010-02-01"];
     vel_data := grid3_vel; ts_data := grid3_ts |}.

Definition grid3_blank : Inputs :=
  {| out_name_base := "timeseries"; script_dir := "/opt/pysar";
     vlim := None; colormap := None; metadata := grid3_meta;
     times := ["2010-01-01"; "2010-02-01"];
     vel_data := map (map (fun _ => None)) grid3_vel; ts_data := grid3_ts |}.

(** The data and the placemarks of the two runs that return. *)
Definition no_data : Data :=
  {| dates := []; vel := []; ts := []; ts_min := 0; ts_max := 0;
     norm := {| vmin := 0; vmax := 0 |}; cmap := ""; coords := [] |}.

Definition value_or {A} (r : result A) (default : A) : A :=
  match r with
  | Ok a => a
  | Raise _ => default
  end.

Definition grid3_data : Data :=
  Eval vm_compute in value_or (read_data grid3) no_data.

Definition grid3_placemarks : list Xml :=
  Eval vm_compute in value_or (@placemarks plain grid3_data) [].

Definition grid5_data : Data :=
  Eval vm_compute in value_or (read_data grid5) no_data.

Definition grid5_placemarks : list Xml :=
  Eval vm_compute in value_or (@placemarks plain grid5_data) [].

(** A single row of three columns, the 3x3 run with a time-series raster of
    another shape, and the 3x3 run with metadata that announce two rows. *)
Definition row_meta : Metadata :=
  {| LENGTH := 1; WIDTH := 3; Y_FIRST := 10; X_FIRST := 20; Y_STEP := -1; X_STEP := 1 |}.

Definition grid3_ragged : Inputs :=
  {| out_name_base := "timeseries"; script_dir := "/opt/pysar";
     vlim := None; colormap := None; metadata := grid3_meta;
     times := ["2010-01-01"; "2010-02-01"];
     vel_data := grid3_vel;
     ts_data := [ [ [0; 0; 0]; [0; 0; 0]; [0; 0; 0] ];
                  [ [1 # 100; 2 # 100; 3 # 100]; [4 # 100; 5 # 100; 6 # 100] ] ]%Q |}.

Definition grid3_two_rows : Inputs :=
  {| out_name_base := "timeseries"; script_dir := "/opt/pysar";
     vlim := None; colormap := None;
     metadata := {| LENGTH := 2; WIDTH := 3; Y_FIRST := 10; X_FIRST := 20;
                    Y_STEP := -1; X_STEP := 1 |};
     times := ["2010-01-01"; "2010-02-01"];
     vel_data := grid3_vel; ts_data := grid3_ts |}.

(** ** Decoding, for stating what a colour string encodes *)

(** The number written by hexadecimal digits. *)
Definition hex_value (s : string) : N := HexString.Raw.to_N s 0.

(** [format_02x] on one channel value: two lowercase digits that read
    back as the value. *)
Definition channel_ok (k : nat) : bool :=
  let n := Z.of_nat k in
  let s := format_02x n in
  (String.length s =? 2)%nat && all_chars is_lower_hex s &&
  (hex_value s =? Z.to_N n)%N.

(** * Properties *)

(** ** Lists and loops *)

(** One step of a computation that returned: the step returned too. *)
Tactic Notation "run_step" hyp(H) ident(x) ident(E) :=
  match type of H with
  | rbind ?m _ = Ok _ =>
      destruct m as [x|?] eqn:E; [cbn [rbind] in H | discriminate H]
  end.

Lemma nth_map_seq {A} (f : nat -> A) (n k : nat) (d : A) :
  (k < n)%nat -> nth k (map f (seq 0 n)) d = f k.
Proof.
  intros Hk.
  rewrite (nth_indep _ d (f 0%nat)) by (rewrite length_map, length_seq; exact Hk).
  rewrite (map_nth f (seq 0 n) 0%nat k), seq_nth by exact Hk.
  reflexivity.
Qed.

Lemma map_const_repeat {A B} (b : B) (xs : list A) :
  map (fun _ => b) xs = repeat b (List.length xs).
Proof. induction xs as [|x xs IH]; simpl; [|rewrite IH]; reflexivity. Qed.

Lemma for_each_length {A B} (body : A -> result B) (xs : list A) (ys : list B) :
  for_each body xs = Ok ys -> List.length ys = List.length xs.
Proof.
  revert ys; induction xs as [|x xs IH]; simpl; intros ys Hrun.
  - inversion Hrun; reflexivity.
  - destruct (body x) as [y|e]; simpl in Hrun; [|discriminate].
    destruct (for_each body xs) as [ys'|e]; simpl in Hrun; [|discriminate].
    inversion Hrun; subst; simpl; f_equal; apply IH; reflexivity.
Qed.

Lemma for_each_nth {A B} (body : A -> result B) (xs : list A) (ys : list B) :
  for_each body xs = Ok ys ->
  forall k x, nth_error xs k = Some x ->
  exists y, nth_error ys k = Some y /\ body x = Ok y.
Proof.
  revert ys; induction xs as [|x xs IH]; simpl; intros ys Hrun k x0 Hk.
  - destruct k; discriminate.
  - destruct (body x) as [y|e] eqn:Hy; simpl in Hrun; [|discriminate].
    destruct (for_each body xs) as [ys'|e]; simpl in Hrun; [|discriminate].
    inversion Hrun; subst; clear Hrun.
    destruct k as [|k]; simpl in *.
    + inversion Hk; subst. exists y; split; [reflexivity | exact Hy].
    + apply (IH ys' eq_refl k x0 Hk).
Qed.

Lemma for_each_ok {A B} (body : A -> result B) (f : A -> B) (xs : list A) :
  (forall x, In x xs -> body x = Ok (f x)) -> for_each body xs = Ok (map f xs).
Proof.
  induction xs as [|x xs IH]; simpl; intros Hbody; [reflexivity|].
  rewrite (Hbody x) by (left; reflexivity); simpl.
  rewrite IH by (intros y Hy; apply Hbody; right; exact Hy).
  reflexivity.
Qed.

(** ** get_lat_lon *)

Lemma inject_Z_nonzero (z : Z) : z <> 0%Z -> ~ inject_Z z == 0.
Proof. intros Hz E; unfold Qeq in E; simpl in E; lia. Qed.

Lemma mgrid_size_pos (n : Z) : (1 < n)%Z -> mgrid_size n = Z.to_nat n.
Proof. intros Hn; unfold mgrid_size; rewrite Z.abs_eq by lia; reflexivity. Qed.

Lemma mgrid_value_interp (start stop : Q) (n : Z) (k : nat) :
  (1 < n)%Z ->
  mgrid_value start stop n k ==
  start + (stop - start) * inject_Z (Z.of_nat k) / inject_Z (n - 1).
Proof.
  intros Hn; unfold mgrid_value, mgrid_step.
  rewrite Z.abs_eq by lia.
  destruct (Z.eqb_spec n 1) as [E|_]; [lia|].
  assert (Hd : ~ inject_Z (n - 1) == 0) by (apply inject_Z_nonzero; lia).
  field; exact Hd.
Qed.

Lemma mgrid_value_first (start stop : Q) (n : Z) :
  mgrid_value start stop n 0 == start.
Proof. unfold mgrid_value; simpl; ring. Qed.

Lemma mgrid_value_last (start stop : Q) (n : Z) :
  (1 < n)%Z -> mgrid_value start stop n (Z.to_nat n - 1) == stop.
Proof.
  intros Hn; rewrite mgrid_value_interp by exact Hn.
  replace (Z.of_nat (Z.to_nat n - 1)) with (n - 1)%Z by lia.
  assert (Hd : ~ inject_Z (n - 1) == 0) by (apply inject_Z_nonzero; lia).
  field; exact Hd.
Qed.

Lemma mgrid2_shape (s0 e0 : Q) (n0 : Z) (s1 e1 : Q) (n1 : Z) :
  shape (fst (mgrid2 s0 e0 n0 s1 e1 n1)) = repeat (mgrid_size n1) (mgrid_size n0) /\
  shape (snd (mgrid2 s0 e0 n0 s1 e1 n1)) = repeat (mgrid_size n1) (mgrid_size n0).
Proof.
  unfold mgrid2, shape; simpl.
  rewrite !map_map.
  split.
  - rewrite (map_ext _ (fun _ => mgrid_size n1))
      by (intros r; rewrite length_map, length_seq; reflexivity).
    rewrite map_const_repeat, length_seq; reflexivity.
  - rewrite (map_ext _ (fun _ => mgrid_size n1))
      by (intros r; rewrite length_map, length_seq; reflexivity).
    rewrite map_const_repeat, length_seq; reflexivity.
Qed.

Lemma mgrid2_cell (s0 e0 : Q) (n0 : Z) (s1 e1 : Q) (n1 : Z) (r c : nat) :
  (r < mgrid_size n0)%nat -> (c < mgrid_size n1)%nat ->
  cell_at (fst (mgrid2 s0 e0 n0 s1 e1 n1)) r c = mgrid_value s0 e0 n0 r /\
  cell_at (snd (mgrid2 s0 e0 n0 s1 e1 n1)) r c = mgrid_value s1 e1 n1 c.
Proof.
  intros Hr Hc; unfold cell_at, mgrid2; simpl.
  rewrite !(nth_map_seq _ _ _ _ Hr), !(nth_map_seq _ _ _ _ Hc).
  split; reflexivity.
Qed.

(** C1: for a grid of more than one row and more than one column,
    [get_lat_lon] returns two grids of shape (LENGTH, WIDTH) whose cells
    interpolate linearly between the declared corner and the corner
    [lat0 + lat_step * LENGTH], [lon0 + lon_step * WIDTH]; the cell (0, 0) is
    (lat0, lon0) and the cell (LENGTH-1, WIDTH-1) is that opposite corner. *)
Theorem get_lat_lon_interpolates (meta : Metadata) :
  (1 < LENGTH meta)%Z -> (1 < WIDTH meta)%Z ->
  let H := Z.to_nat (LENGTH meta) in
  let W := Z.to_nat (WIDTH meta) in
  let lats := fst (get_lat_lon meta) in
  let lons := snd (get_lat_lon meta) in
  let lat0 := Y_FIRST meta in
  let lon0 := X_FIRST meta in
  let lat1 := (lat0 + Y_STEP meta * inject_Z (LENGTH meta))%Q in
  let lon1 := (lon0 + X_STEP meta * inject_Z (WIDTH meta))%Q in
  shape lats = repeat W H /\ shape lons = repeat W H /\
  (forall r c : nat, (r < H)%nat -> (c < W)%nat ->
     cell_at lats r c ==
       lat0 + (lat1 - lat0) * inject_Z (Z.of_nat r) / inject_Z (LENGTH meta - 1) /\
     cell_at lons r c ==
       lon0 + (lon1 - lon0) * inject_Z (Z.of_nat c) / inject_Z (WIDTH meta - 1)) /\
  cell_at lats 0 0 == lat0 /\ cell_at lons 0 0 == lon0 /\
  cell_at lats (H - 1) (W - 1) == lat0 + Y_STEP meta * inject_Z (LENGTH meta) /\
  cell_at lons (H - 1) (W - 1) == lon0 + X_STEP meta * inject_Z (WIDTH meta).
Proof.
  intros HL HW H W lats lons lat0 lon0 lat1 lon1.
  assert (EH : mgrid_size (LENGTH meta) = H) by (apply mgrid_size_pos; exact HL).
  assert (EW : mgrid_size (WIDTH meta) = W) by (apply mgrid_size_pos; exact HW).
  assert (Hcell : forall r c : nat, (r < H)%nat -> (c < W)%nat ->
            cell_at lats r c = mgrid_value lat0 lat1 (LENGTH meta) r /\
            cell_at lons r c = mgrid_value lon0 lon1 (WIDTH meta) c).
  { intros r c Hr Hc. apply mgrid2_cell; [rewrite EH | rewrite EW]; assumption. }
  assert (H0 : (0 < H)%nat) by (subst H; lia).
  assert (W0 : (0 < W)%nat) by (subst W; lia).
  destruct (mgrid2_shape lat0 lat1 (LENGTH meta) lon0 lon1 (WIDTH meta)) as [S1 S2].
  rewrite EH, EW in S1, S2.
  repeat split.
  - exact S1.
  - exact S2.
  - destruct (Hcell r c) as [E _]; [assumption..|]. rewrite E.
    apply mgrid_value_interp; exact HL.
  - destruct (Hcell r c) as [_ E]; [assumption..|]. rewrite E.
    apply mgrid_value_interp; exact HW.
  - destruct (Hcell 0%nat 0%nat H0 W0) as [E _]. rewrite E. apply mgrid_value_first.
  - destruct (Hcell 0%nat 0%nat H0 W0) as [_ E]. rewrite E. apply mgrid_value_first.
  - destruct (Hcell (H - 1)%nat (W - 1)%nat) as [E _]; [lia..|]. rewrite E.
    apply mgrid_value_last; exact HL.
  - destruct (Hcell (H - 1)%nat (W - 1)%nat) as [_ E]; [lia..|]. rewrite E.
    apply mgrid_value_last; exact HW.
Qed.

(** ** Colour encoding *)

Lemma py_round_cases (x : Q) :
  (py_round x = Qfloor x /\ x - inject_Z (Qfloor x) <= 1 # 2) \/
  (py_round x = (Qfloor x + 1)%Z /\ 1 # 2 <= x - inject_Z (Qfloor x)).
Proof.
  unfold py_round.
  destruct (Qcompare_spec (x - inject_Z (Qfloor x)) (1 # 2)) as [E|L|G].
  - destruct (Z.even (Qfloor x)); [left | right]; split; try reflexivity;
      rewrite E; apply Qle_refl.
  - left; split; [reflexivity | apply Qlt_le_weak; exact L].
  - right; split; [reflexivity | apply Qlt_le_weak; exact G].
Qed.

Lemma py_round_near (x : Q) : Qabs (inject_Z (py_round x) - x) <= 1 # 2.
Proof.
  apply Qabs_Qle_condition.
  pose proof (Qfloor_le x) as Hlo.
  pose proof (Qlt_floor x) as Hhi.
  rewrite inject_Z_plus in Hhi; change (inject_Z 1) with 1 in Hhi.
  destruct (py_round_cases x) as [[E H]|[E H]]; rewrite E.
  - split; lra.
  - rewrite inject_Z_plus; change (inject_Z 1) with 1. split; lra.
Qed.

Lemma py_round_range (x : Q) (n : Z) :
  0 <= x -> x <= inject_Z n -> (0 <= py_round x <= n)%Z.
Proof.
  intros H0 Hn.
  pose proof (Qfloor_le x) as Hlo.
  pose proof (Qlt_floor x) as Hhi.
  rewrite inject_Z_plus in Hhi; change (inject_Z 1) with 1 in Hhi.
  assert (F0 : (0 <= Qfloor x)%Z).
  { change 0%Z with (Qfloor 0). apply Qfloor_resp_le; exact H0. }
  assert (Fn : (Qfloor x <= n)%Z).
  { rewrite Zle_Qle. lra. }
  destruct (py_round_cases x) as [[E H]|[E H]]; rewrite E.
  - lia.
  - split; [lia|].
    destruct (Z.eq_dec (Qfloor x) n) as [En|Hne]; [|lia].
    rewrite En in H. lra.
Qed.

Lemma channels_ok : forallb channel_ok (seq 0 256) = true.
Proof. vm_compute; reflexivity. Qed.

Lemma format_02x_channel (n : Z) :
  (0 <= n <= 255)%Z ->
  String.length (format_02x n) = 2%nat /\
  all_chars is_lower_hex (format_02x n) = true /\
  hex_value (format_02x n) = Z.to_N n.
Proof.
  intros Hn.
  pose proof channels_ok as Hall.
  rewrite forallb_forall in Hall.
  specialize (Hall (Z.to_nat n)).
  unfold channel_ok in Hall.
  rewrite Z2Nat.id in Hall by lia.
  assert (Hin : In (Z.to_nat n) (seq 0 256)) by (apply in_seq; lia).
  apply Hall in Hin.
  apply andb_prop in Hin; destruct Hin as [Hin Hval].
  apply andb_prop in Hin; destruct Hin as [Hlen Hhex].
  apply Nat.eqb_eq in Hlen. apply N.eqb_eq in Hval.
  repeat split; assumption.
Qed.

Lemma in_unit_spec (x : Q) : in_unit x = true <-> 0 <= x /\ x <= 1.
Proof.
  unfold in_unit; rewrite andb_true_iff, !Qle_bool_iff; reflexivity.
Qed.

Lemma channel_range (x : Q) :
  in_unit x = true -> (0 <= py_round (x * 255) <= 255)%Z.
Proof.
  intros Hx; apply in_unit_spec in Hx; destruct Hx as [H0 H1].
  apply py_round_range; change (inject_Z 255) with 255%Q; lra.
Qed.

Lemma two_chars (s : string) :
  String.length s = 2%nat -> exists a b, s = String a (String b EmptyString).
Proof.
  destruct s as [|a [|b [|c s]]]; simpl; intros Hlen; try discriminate.
  exists a, b; reflexivity.
Qed.

(** C3: the colour written into a placemark style, for a colour with four
    components in [0,1], is a string of exactly 8 lowercase hexadecimal
    characters without separator, in channel order alpha, blue, green, red
    (characters 0-1 read back as alpha, 6-7 as red), each channel being
    [round(component * 255)], a whole number of [0,255] within 1/2 of
    [component * 255]. *)
Theorem kml_color_abgr (rgba : RGBA) :
  in_unit (red rgba) = true -> in_unit (green rgba) = true ->
  in_unit (blue rgba) = true -> in_unit (alpha rgba) = true ->
  let q := fun x : Q => py_round (x * 255) in
  exists s,
    kml_color rgba = Ok s /\
    String.length s = 8%nat /\
    all_chars is_lower_hex s = true /\
    s = format_02x (q (alpha rgba)) ++ format_02x (q (blue rgba)) ++
        format_02x (q (green rgba)) ++ format_02x (q (red rgba)) /\
    hex_value (substring 0 2 s) = Z.to_N (q (alpha rgba)) /\
    hex_value (substring 2 2 s) = Z.to_N (q (blue rgba)) /\
    hex_value (substring 4 2 s) = Z.to_N (q (green rgba)) /\
    hex_value (substring 6 2 s) = Z.to_N (q (red rgba)) /\
    Forall (fun x => (0 <= q x <= 255)%Z /\
                     Qabs (inject_Z (q x) - x * 255) <= 1 # 2)
           [alpha rgba; blue rgba; green rgba; red rgba].
Proof.
  intros Hr Hg Hb Ha q.
  destruct (format_02x_channel _ (channel_range _ Ha)) as (La & Xa & Va).
  destruct (format_02x_channel _ (channel_range _ Hb)) as (Lb & Xb & Vb).
  destruct (format_02x_channel _ (channel_range _ Hg)) as (Lg & Xg & Vg).
  destruct (format_02x_channel _ (channel_range _ Hr)) as (Lr & Xr & Vr).
  fold (q (alpha rgba)) in La, Xa, Va. fold (q (blue rgba)) in Lb, Xb, Vb.
  fold (q (green rgba)) in Lg, Xg, Vg. fold (q (red rgba)) in Lr, Xr, Vr.
  unfold kml_color, to_hex, to_rgba; simpl forallb.
  rewrite Ha, Hb, Hg, Hr; simpl.
  fold (q (alpha rgba)) (q (blue rgba)) (q (green rgba)) (q (red rgba)).
  destruct (two_chars _ La) as (a1 & a2 & Ea).
  destruct (two_chars _ Lb) as (b1 & b2 & Eb).
  destruct (two_chars _ Lg) as (g1 & g2 & Eg).
  destruct (two_chars _ Lr) as (r1 & r2 & Er).
  rewrite Ea, Eb, Eg, Er in *.
  eexists; split; [reflexivity|].
  simpl in Xa, Xb, Xg, Xr |- *.
  repeat rewrite andb_true_iff in *.
  repeat split; try tauto.
  - repeat constructor; try (apply channel_range; assumption); apply py_round_near.
Qed.

(** ** Normalisation *)

Lemma Normalize_call_increasing (lo hi value : Q) :
  lo < hi ->
  Normalize_call {| vmin := lo; vmax := hi |} value = Ok ((value - lo) / (hi - lo)).
Proof.
  intros Hlt; unfold Normalize_call; simpl.
  destruct (Qeq_bool lo hi) eqn:E.
  - apply Qeq_bool_eq in E. rewrite E in Hlt. exfalso; apply (Qlt_irrefl hi Hlt).
  - rewrite (proj1 (Qlt_alt lo hi) Hlt); reflexivity.
Qed.

Lemma Normalize_call_reversed (lo hi value : Q) :
  hi < lo ->
  Normalize_call {| vmin := lo; vmax := hi |} value =
  Raise (ValueError "minvalue must be less than or equal to maxvalue").
Proof.
  intros Hgt; unfold Normalize_call; simpl.
  destruct (Qeq_bool lo hi) eqn:E.
  - apply Qeq_bool_eq in E. rewrite E in Hgt. exfalso; apply (Qlt_irrefl hi Hgt).
  - rewrite (proj1 (Qgt_alt lo hi) Hgt); reflexivity.
Qed.

Lemma scale_lt (a b w : Q) : 0 < w -> a < b -> a / w < b / w.
Proof.
  intros Hw Hab; unfold Qdiv.
  apply Qmult_lt_compat_r; [apply Qinv_lt_0_compat; exact Hw | exact Hab].
Qed.

Lemma scale_le (a b w : Q) : 0 < w -> a <= b -> a / w <= b / w.
Proof.
  intros Hw Hab; unfold Qdiv.
  apply Qmult_le_compat_r; [exact Hab|].
  apply Qlt_le_weak, Qinv_lt_0_compat; exact Hw.
Qed.

(** ** The limits that the colorbar leaves *)

Lemma Qlt_bool_iff (x y : Q) : Qlt_bool x y = true <-> x < y.
Proof.
  unfold Qlt_bool; rewrite negb_true_iff.
  split.
  - intros E. apply Qnot_le_lt. intros H. apply Qle_bool_iff in H. congruence.
  - intros H. destruct (Qle_bool y x) eqn:E; [|reflexivity].
    apply Qle_bool_iff in E. exfalso. apply (Qlt_irrefl x). eapply Qlt_le_trans; eassumption.
Qed.

Lemma Qlt_bool_false (x y : Q) : Qlt_bool x y = false <-> y <= x.
Proof.
  unfold Qlt_bool; rewrite negb_false_iff. apply Qle_bool_iff.
Qed.

Lemma Qle_bool_false (x y : Q) : Qle_bool x y = false <-> y < x.
Proof.
  rewrite <- Qlt_bool_iff. unfold Qlt_bool. rewrite negb_true_iff. reflexivity.
Qed.

Lemma Qeq_bool_false (x y : Q) : Qeq_bool x y = false <-> ~ x == y.
Proof.
  split.
  - apply Qeq_bool_neq.
  - intros H. destruct (Qeq_bool x y) eqn:E; [|reflexivity].
    exfalso; apply H, Qeq_bool_eq, E.
Qed.

Lemma Qeq_bool_same (x : Q) : Qeq_bool x x = true.
Proof. apply Qeq_bool_iff; reflexivity. Qed.

Lemma Qabs_cases (x : Q) : (0 <= x /\ Qabs x == x) \/ (x < 0 /\ Qabs x == - x).
Proof.
  destruct (Qlt_le_dec x 0) as [L|G].
  - right; split; [exact L | apply Qabs_neg, Qlt_le_weak, L].
  - left; split; [exact G | apply Qabs_pos, G].
Qed.

Lemma Qmax_cases (x y : Q) : (x <= y /\ Qmax x y == y) \/ (y < x /\ Qmax x y == x).
Proof.
  destruct (Qlt_le_dec y x) as [L|G].
  - right; split; [exact L | apply Q.max_l, Qlt_le_weak, L].
  - left; split; [exact G | apply Q.max_r, G].
Qed.

Lemma magnitude_floor_small : 0 < magnitude_floor /\ magnitude_floor < 1 # 100.
Proof. split; vm_compute; reflexivity. Qed.

Ltac abs_max x y :=
  let Hx := fresh "Hx" in let Hy := fresh "Hy" in let Hm := fresh "Hm" in
  destruct (Qabs_cases x) as [[? Hx]|[? Hx]];
  destruct (Qabs_cases y) as [[? Hy]|[? Hy]];
  destruct (Qmax_cases (Qabs x) (Qabs y)) as [[? Hm]|[? Hm]];
  unfold tiny, expander in *.

Lemma nonsingular_proper (x y : Q) : proper x y -> nonsingular x y = (x, y).
Proof.
  intros (Hle & Hmag & Hwide); unfold nonsingular.
  assert (E1 : Qlt_bool y x = false) by (apply Qlt_bool_false; exact Hle).
  rewrite E1.
  fold magnitude_floor.
  assert (E2 : Qlt_bool (Qmax (Qabs x) (Qabs y)) magnitude_floor = false)
    by (apply Qlt_bool_false; exact Hmag).
  rewrite E2.
  assert (E3 : Qle_bool (y - x) (Qmax (Qabs x) (Qabs y) * tiny) = false)
    by (apply Qle_bool_false; exact Hwide).
  rewrite E3; reflexivity.
Qed.

Lemma process_values_proper (depth : nat) (x y : Q) :
  proper x y ->
  process_values (S depth) {| vmin := x; vmax := y |} = Ok {| vmin := x; vmax := y |}.
Proof.
  intros Hp; simpl. rewrite (nonsingular_proper x y Hp); simpl.
  rewrite Qeq_bool_same; simpl. rewrite Qeq_bool_same; reflexivity.
Qed.

Lemma proper_lt (x y : Q) : proper x y -> x < y.
Proof.
  intros (_ & Hmag & Hwide).
  pose proof magnitude_floor_small as [H0 _].
  unfold tiny in Hwide. lra.
Qed.

Lemma process_values_step (depth : nat) (x y lo hi : Q) :
  nonsingular x y = (lo, hi) ->
  process_values (S depth) {| vmin := x; vmax := y |} =
  (norm1 <- (if Qeq_bool lo x then Ok {| vmin := x; vmax := y |}
             else process_values depth {| vmin := lo; vmax := y |}) ;;
   if Qeq_bool hi (vmax norm1) then Ok norm1
   else process_values depth {| vmin := vmin norm1; vmax := hi |}).
Proof. intros E; simpl; rewrite E; reflexivity. Qed.

(** What [nonsingular] does with limits in order. *)
Lemma nonsingular_ordered (x y : Q) :
  x <= y ->
  (Qmax (Qabs x) (Qabs y) < magnitude_floor /\
   nonsingular x y = (- expander, expander)) \/
  (magnitude_floor <= Qmax (Qabs x) (Qabs y) /\
   y - x <= Qmax (Qabs x) (Qabs y) * tiny /\
   nonsingular x y = (x - expander * Qabs x, y + expander * Qabs y)) \/
  (proper x y /\ nonsingular x y = (x, y)).
Proof.
  intros Hle.
  pose proof magnitude_floor_small as [F0 F1].
  unfold nonsingular.
  assert (E1 : Qlt_bool y x = false) by (apply Qlt_bool_false; exact Hle).
  rewrite E1. fold magnitude_floor.
  destruct (Qlt_bool (Qmax (Qabs x) (Qabs y)) magnitude_floor) eqn:E2.
  - apply Qlt_bool_iff in E2. left; split; [exact E2 | reflexivity].
  - apply Qlt_bool_false in E2.
    destruct (Qle_bool (y - x) (Qmax (Qabs x) (Qabs y) * tiny)) eqn:E3.
    + apply Qle_bool_iff in E3.
      assert (Z : Qeq_bool y 0 && Qeq_bool x 0 = false).
      { apply andb_false_iff. left. apply Qeq_bool_false. abs_max x y; lra. }
      rewrite Z. right; left. repeat split; assumption.
    + apply Qle_bool_false in E3. right; right.
      split; [repeat split; assumption | reflexivity].
Qed.

Lemma process_values_ordered (depth : nat) (x y : Q) :
  x <= y ->
  exists n,
    process_values (S (S depth)) {| vmin := x; vmax := y |} = Ok n /\
    proper (vmin n) (vmax n) /\
    vmin n <= x /\ y <= vmax n /\
    (proper x y -> n = {| vmin := x; vmax := y |}) /\
    (x == y -> magnitude_floor <= Qabs x ->
     n = {| vmin := x - expander * Qabs x; vmax := y + expander * Qabs y |}) /\
    (x == 0 -> y == 0 -> n = {| vmin := - expander; vmax := expander |}).
Proof.
  intros Hle.
  pose proof magnitude_floor_small as [F0 F1].
  destruct (nonsingular_ordered x y Hle) as [[E2 Ens]|[(E2 & E3 & Ens)|[Hp Ens]]];
    rewrite (process_values_step _ _ _ _ _ Ens).
  - (* both limits of negligible magnitude *)
    assert (Hx : - magnitude_floor < x /\ x < magnitude_floor) by (abs_max x y; lra).
    assert (Hy : - magnitude_floor < y /\ y < magnitude_floor) by (abs_max x y; lra).
    assert (P1 : proper (- expander) y).
    { unfold proper. abs_max (- expander) y; lra. }
    assert (P2 : proper (- expander) expander).
    { unfold proper. abs_max (- expander) expander; lra. }
    assert (N1 : Qeq_bool (- expander) x = false)
      by (apply Qeq_bool_false; unfold expander; lra).
    assert (N2 : Qeq_bool expander y = false)
      by (apply Qeq_bool_false; unfold expander; lra).
    rewrite N1, (process_values_proper depth _ _ P1); cbn [rbind vmin vmax].
    rewrite N2, (process_values_proper depth _ _ P2).
    eexists; split; [reflexivity|]. cbn [vmin vmax].
    split; [exact P2|].
    split; [unfold expander; lra|]. split; [unfold expander; lra|].
    split; [intros (_ & Hmag & _); exfalso; lra|].
    split; [intros _ Hmag; exfalso; abs_max x y; lra|].
    intros _ _; reflexivity.
  - (* limits too close to each other *)
    assert (Hx0 : ~ x == 0) by (abs_max x y; lra).
    assert (Hy0 : ~ y == 0) by (abs_max x y; lra).
    assert (P1 : proper (x - expander * Qabs x) y).
    { unfold proper. abs_max x y; abs_max (x - expander * Qabs x) y; lra. }
    assert (P2 : proper (x - expander * Qabs x) (y + expander * Qabs y)).
    { unfold proper.
      abs_max x y; abs_max (x - expander * Qabs x) (y + expander * Qabs y); lra. }
    assert (N1 : Qeq_bool (x - expander * Qabs x) x = false).
    { apply Qeq_bool_false. abs_max x y; lra. }
    assert (N2 : Qeq_bool (y + expander * Qabs y) y = false).
    { apply Qeq_bool_false. abs_max x y; lra. }
    rewrite N1, (process_values_proper depth _ _ P1); cbn [rbind vmin vmax].
    rewrite N2, (process_values_proper depth _ _ P2).
    eexists; split; [reflexivity|]. cbn [vmin vmax].
    split; [exact P2|].
    split; [abs_max x y; lra|].
    split; [abs_max x y; lra|].
    split; [intros (_ & _ & Hwide); exfalso; lra|].
    split; [intros _ _; reflexivity|].
    intros Hx _; contradiction.
  - (* proper limits *)
    rewrite Qeq_bool_same; cbn [rbind vmin vmax]. rewrite Qeq_bool_same.
    eexists; split; [reflexivity|]. cbn [vmin vmax].
    split; [exact Hp|].
    split; [apply Qle_refl|]. split; [apply Qle_refl|].
    split; [intros _; reflexivity|].
    destruct Hp as (_ & Hmag & Hwide).
    split; [intros Hxy _; exfalso; abs_max x y; lra|].
    intros Hx Hy; exfalso; abs_max x y; lra.
Qed.

Lemma nonsingular_swapped (x y : Q) : y < x -> nonsingular x y = nonsingular y x.
Proof.
  intros Hlt; unfold nonsingular.
  assert (E1 : Qlt_bool y x = true) by (apply Qlt_bool_iff; exact Hlt).
  assert (E2 : Qlt_bool x y = false) by (apply Qlt_bool_false, Qlt_le_weak; exact Hlt).
  rewrite E1, E2; reflexivity.
Qed.

Lemma process_values_returns (depth : nat) (norm : Normalize) :
  exists n,
    process_values (S (S (S depth))) norm = Ok n /\ proper (vmin n) (vmax n).
Proof.
  destruct norm as [x y].
  pose proof magnitude_floor_small as [F0 F1].
  destruct (Qlt_le_dec y x) as [Hlt|Hle].
  - assert (Hns : exists lo hi, nonsingular x y = (lo, hi) /\ lo <= y /\ lo <= hi).
    { rewrite (nonsingular_swapped x y Hlt).
      destruct (nonsingular_ordered y x (Qlt_le_weak _ _ Hlt))
        as [[E2 Ens]|[(E2 & E3 & Ens)|[Hp Ens]]]; rewrite Ens;
        eexists; eexists; (split; [reflexivity|]).
      - split; [abs_max y x; lra | unfold expander; lra].
      - split; abs_max y x; lra.
      - split; [apply Qle_refl | apply Qlt_le_weak; exact Hlt]. }
    destruct Hns as (lo & hi & Ens & Hlo & Hlh).
    rewrite (process_values_step _ _ _ _ _ Ens).
    assert (N1 : Qeq_bool lo x = false) by (apply Qeq_bool_false; lra).
    rewrite N1.
    destruct (process_values_ordered depth lo y Hlo) as (n1 & Hn1 & P1 & L1 & _).
    rewrite Hn1; cbn [rbind].
    destruct (Qeq_bool hi (vmax n1)); [exists n1; split; [reflexivity | exact P1]|].
    destruct (process_values_ordered depth (vmin n1) hi) as (n2 & Hn2 & P2 & _);
      [lra|].
    exists n2; split; assumption.
  - destruct (process_values_ordered (S depth) x y Hle) as (n & Hn & Pn & _).
    exists n; split; assumption.
Qed.

Lemma process_values_deeper (depth : nat) (norm n : Normalize) :
  process_values depth norm = Ok n -> process_values (S depth) norm = Ok n.
Proof.
  revert norm n; induction depth as [|depth IH]; intros [x y] n Hrun;
    [discriminate Hrun|].
  destruct (nonsingular x y) as [lo hi] eqn:Ens.
  rewrite (process_values_step depth _ _ _ _ Ens) in Hrun.
  rewrite (process_values_step (S depth) _ _ _ _ Ens).
  destruct (Qeq_bool lo x).
  - cbn [rbind vmin vmax] in Hrun |- *.
    destruct (Qeq_bool hi y); [exact Hrun | apply IH; exact Hrun].
  - destruct (process_values depth {| vmin := lo; vmax := y |}) as [n1|e] eqn:H1;
      [|discriminate Hrun].
    rewrite (IH _ _ H1). cbn [rbind] in Hrun |- *.
    destruct (Qeq_bool hi (vmax n1)); [exact Hrun | apply IH; exact Hrun].
Qed.

(** C4, as the claim states it, fails: with the configured limits 10 and 0
    the colorbar leaves the norm with the limits -1/10 and 10, and the
    normalisation of 2 is 21/101, not (2 - 10) / (0 - 10) = 4/5. *)
Lemma configured_limits_refuted :
  ~ (forall lo hi v : Q, ~ lo == hi ->
       exists n y,
         process_values callback_depth {| vmin := lo; vmax := hi |} = Ok n /\
         Normalize_call n v = Ok y /\
         y == (v - lo) / (hi - lo)).
Proof.
  intros Hclaim.
  destruct (Hclaim 10 0 2) as (n & y & Hn & Hy & Heq).
  - intros E; vm_compute in E; discriminate E.
  - vm_compute in Hn. inversion Hn; subst n; clear Hn.
    vm_compute in Hy. inversion Hy; subst y; clear Hy.
    vm_compute in Heq; discriminate Heq.
Qed.

(** C4, amended: for configured limits vmin < vmax that the colorbar
    leaves as they are (their distance is more than 1e-15 times the larger
    magnitude, which is not below 1e21 times the smallest normal float), the
    norm that the loop calls has these limits, and the normalisation of v is
    (v - vmin) / (vmax - vmin), without clamping: it maps vmin to 0 and vmax
    to 1, is affine and increasing in v, and takes a value below vmin below 0
    and a value above vmax above 1. *)
Theorem Normalize_call_affine (lo hi : Q) :
  lo < hi ->
  magnitude_floor <= Qmax (Qabs lo) (Qabs hi) ->
  Qmax (Qabs lo) (Qabs hi) * tiny < hi - lo ->
  let n := fun v : Q => (v - lo) / (hi - lo) in
  process_values callback_depth {| vmin := lo; vmax := hi |}
    = Ok {| vmin := lo; vmax := hi |} /\
  (forall (P : Platform) (name : string) (colormap : Colormap),
     registered name = Some colormap ->
     ColorbarBase name {| vmin := lo; vmax := hi |}
       = Ok {| vmin := lo; vmax := hi |}) /\
  (forall v, Normalize_call {| vmin := lo; vmax := hi |} v = Ok (n v)) /\
  n lo == 0 /\ n hi == 1 /\
  (forall v, n v == (1 / (hi - lo)) * v + - lo / (hi - lo)) /\
  (forall v w, v <= w -> n v <= n w) /\
  (forall v w, v < w -> n v < n w) /\
  (forall v, v < lo -> n v < 0) /\
  (forall v, hi < v -> 1 < n v).
Proof.
  intros Hlt Hmag Hwide n.
  assert (Hw : 0 < hi - lo) by lra.
  assert (Hd : ~ hi - lo == 0) by lra.
  assert (E0 : n lo == 0) by (unfold n; field; exact Hd).
  assert (E1 : n hi == 1) by (unfold n; field; exact Hd).
  assert (Hleft : process_values callback_depth {| vmin := lo; vmax := hi |}
                  = Ok {| vmin := lo; vmax := hi |}).
  { apply (process_values_proper 99).
    split; [apply Qlt_le_weak; exact Hlt | split; assumption]. }
  split; [exact Hleft|].
  split.
  { intros P name colormap Hreg. unfold ColorbarBase, get_cmap.
    rewrite Hreg; exact Hleft. }
  repeat split.
  - intros v; apply Normalize_call_increasing; exact Hlt.
  - exact E0.
  - exact E1.
  - intros v; unfold n; field; exact Hd.
  - intros v w Hvw; unfold n; apply scale_le; [exact Hw | lra].
  - intros v w Hvw; unfold n; apply scale_lt; [exact Hw | lra].
  - intros v Hv. rewrite <- E0. unfold n; apply scale_lt; [exact Hw | lra].
  - intros v Hv. rewrite <- E1. unfold n; apply scale_lt; [exact Hw | lra].
Qed.

(** ** Minimum and maximum *)

Lemma least_spec (xs : list Q) (x : Q) :
  In (least xs x) (x :: xs) /\ Forall (fun y => least xs x <= y) (x :: xs).
Proof.
  revert x; induction xs as [|y xs IH]; intros x; simpl.
  - split; [left; reflexivity | repeat constructor; apply Qle_refl].
  - unfold least in *; simpl.
    set (m := match (y ?= x)%Q with Lt => y | _ => x end).
    destruct (IH m) as [Hin Hall].
    inversion Hall as [|? ? Hm Hxs]; subst.
    assert (Hmx : m <= x /\ m <= y /\ (m = x \/ m = y)).
    { unfold m; destruct (Qcompare_spec y x) as [E|L|G].
      - repeat split; [apply Qle_refl | | left; reflexivity].
        apply Qle_lteq; right; apply Qeq_sym; exact E.
      - repeat split; [apply Qlt_le_weak; exact L | apply Qle_refl | right; reflexivity].
      - repeat split; [apply Qle_refl | apply Qlt_le_weak; exact G | left; reflexivity]. }
    destruct Hmx as (Hx & Hy & Hm').
    split.
    + destruct Hin as [E|Hin]; [|right; right; exact Hin].
      rewrite <- E. destruct Hm' as [->| ->]; [left | right; left]; reflexivity.
    + constructor; [eapply Qle_trans; eassumption|].
      constructor; [eapply Qle_trans; eassumption | exact Hxs].
Qed.

Lemma greatest_spec (xs : list Q) (x : Q) :
  In (greatest xs x) (x :: xs) /\ Forall (fun y => y <= greatest xs x) (x :: xs).
Proof.
  revert x; induction xs as [|y xs IH]; intros x; simpl.
  - split; [left; reflexivity | repeat constructor; apply Qle_refl].
  - unfold greatest in *; simpl.
    set (m := match (y ?= x)%Q with Gt => y | _ => x end).
    destruct (IH m) as [Hin Hall].
    inversion Hall as [|? ? Hm Hxs]; subst.
    assert (Hmx : x <= m /\ y <= m /\ (m = x \/ m = y)).
    { unfold m; destruct (Qcompare_spec y x) as [E|L|G].
      - repeat split; [apply Qle_refl | | left; reflexivity].
        apply Qle_lteq; right; exact E.
      - repeat split; [apply Qle_refl | apply Qlt_le_weak; exact L | left; reflexivity].
      - repeat split; [apply Qlt_le_weak; exact G | apply Qle_refl | right; reflexivity]. }
    destruct Hmx as (Hx & Hy & Hm').
    split.
    + destruct Hin as [E|Hin]; [|right; right; exact Hin].
      rewrite <- E. destruct Hm' as [->| ->]; [left | right; left]; reflexivity.
    + constructor; [eapply Qle_trans; eassumption|].
      constructor; [eapply Qle_trans; eassumption | exact Hxs].
Qed.

Lemma np_min_spec (a : Raster Q) (m : Q) :
  np_min a = Ok m ->
  In m (List.concat a) /\ Forall (fun y => m <= y) (List.concat a).
Proof.
  unfold np_min; destruct (List.concat a) as [|x xs]; intros E; [discriminate|].
  inversion E; subst; apply least_spec.
Qed.

Lemma np_max_spec (a : Raster Q) (m : Q) :
  np_max a = Ok m ->
  In m (List.concat a) /\ Forall (fun y => y <= m) (List.concat a).
Proof.
  unfold np_max; destruct (List.concat a) as [|x xs]; intros E; [discriminate|].
  inversion E; subst; apply greatest_spec.
Qed.

(** Scaling by 100 keeps the order, so it commutes with the reductions. *)
Lemma to_cm_compare (x y : Q) : (to_cm x ?= to_cm y)%Q = (x ?= y)%Q.
Proof.
  unfold to_cm.
  destruct (Qcompare_spec x y) as [E|L|G].
  - apply Qeq_alt. rewrite E; reflexivity.
  - apply Qlt_alt. apply Qmult_lt_compat_r; [reflexivity | exact L].
  - apply Qgt_alt. apply Qmult_lt_compat_r; [reflexivity | exact G].
Qed.

Lemma least_to_cm (xs : list Q) (x : Q) :
  least (map to_cm xs) (to_cm x) = to_cm (least xs x).
Proof.
  revert x; induction xs as [|y xs IH]; intros x; [reflexivity|].
  unfold least in *; simpl.
  rewrite to_cm_compare.
  destruct (y ?= x)%Q; apply IH.
Qed.

Lemma greatest_to_cm (xs : list Q) (x : Q) :
  greatest (map to_cm xs) (to_cm x) = to_cm (greatest xs x).
Proof.
  revert x; induction xs as [|y xs IH]; intros x; [reflexivity|].
  unfold greatest in *; simpl.
  rewrite to_cm_compare.
  destruct (y ?= x)%Q; apply IH.
Qed.

(** ** range *)

Lemma py_range_length (start stop step : nat) :
  List.length (py_range start stop step) = range_length start stop step.
Proof. unfold py_range; rewrite length_map, length_seq; reflexivity. Qed.

Lemma py_range_nth (start stop step k : nat) :
  (k < range_length start stop step)%nat ->
  nth_error (py_range start stop step) k = Some (start + k * step)%nat.
Proof.
  intros Hk; unfold py_range.
  rewrite nth_error_map, nth_error_seq.
  apply Nat.ltb_lt in Hk; rewrite Hk; reflexivity.
Qed.

Lemma range_length_bounds (n step : nat) :
  (0 < step)%nat ->
  ((range_length 0 n step - 1) * step < n \/ n = 0%nat)%nat /\
  (n <= range_length 0 n step * step)%nat /\
  (n = 0%nat -> range_length 0 n step = 0%nat) /\
  (0 < n -> 0 < range_length 0 n step)%nat.
Proof.
  intros Hs; unfold range_length.
  destruct (Nat.ltb_spec 0 n) as [Hn|Hn].
  - rewrite Nat.sub_0_r.
    pose proof (Nat.div_mod_eq (n - 1) step) as Hdm.
    pose proof (Nat.mod_upper_bound (n - 1) step ltac:(lia)) as Hm.
    repeat split; nia.
  - repeat split; lia.
Qed.

Lemma Qceiling_unique (x : Q) (c : Z) :
  inject_Z c - 1 < x -> x <= inject_Z c -> Qceiling x = c.
Proof.
  intros Hlo Hhi.
  apply Z.le_antisymm.
  - rewrite <- (Qceiling_Z c). apply Qceiling_resp_le; exact Hhi.
  - pose proof (Qle_ceiling x) as Hc.
    assert (Hlt : inject_Z (c - 1) < inject_Z (Qceiling x)).
    { unfold Z.sub; rewrite inject_Z_plus, inject_Z_opp; change (inject_Z 1) with 1%Q. lra. }
    rewrite <- Zlt_Qlt in Hlt. lia.
Qed.

Lemma range_length_ceiling (n step : nat) :
  (0 < step)%nat ->
  Z.of_nat (range_length 0 n step) =
  Qceiling (inject_Z (Z.of_nat n) / inject_Z (Z.of_nat step)).
Proof.
  intros Hs.
  destruct (range_length_bounds n step Hs) as (Hlo & Hhi & Hz & Hp).
  assert (Hq : 0 < inject_Z (Z.of_nat step)).
  { change 0%Q with (inject_Z 0); rewrite <- Zlt_Qlt; lia. }
  symmetry; apply Qceiling_unique.
  - apply Qlt_shift_div_l; [exact Hq|].
    destruct (Nat.eq_dec n 0) as [E|Hn].
    + rewrite (Hz E), E; simpl.
      assert (H1 : - (1) * inject_Z (Z.of_nat step) < 0) by lra.
      change (inject_Z 0) with 0%Q. lra.
    + assert (Hlt : inject_Z (Z.of_nat ((range_length 0 n step - 1) * step)) <
                    inject_Z (Z.of_nat n)).
      { rewrite <- Zlt_Qlt. lia. }
      rewrite Nat2Z.inj_mul, Nat2Z.inj_sub, inject_Z_mult in Hlt by lia.
      unfold Z.sub in Hlt; rewrite inject_Z_plus, inject_Z_opp in Hlt.
      exact Hlt.
  - apply Qle_shift_div_r; [exact Hq|].
    rewrite <- inject_Z_mult, <- Zle_Qle. lia.
Qed.

(** ** Masks *)

Lemma valid_mask_shape (v : Raster (option Q)) : shape (valid_mask v) = shape v.
Proof.
  unfold shape, valid_mask; rewrite map_map.
  apply map_ext; intros row; apply length_map.
Qed.

Lemma shape_concat_length {A B} (a : Raster A) (b : Raster B) :
  shape a = shape b -> List.length (List.concat a) = List.length (List.concat b).
Proof.
  revert b; induction a as [|r a IH]; intros [|r' b]; simpl; intros E;
    try discriminate; [reflexivity|].
  inversion E as [[Hr Ht]].
  rewrite !length_app, Hr, (IH b Ht); reflexivity.
Qed.

(** The number of selected cells is the number of true cells of the mask. *)
Lemma select_length {A} (xs : list A) (ms : list bool) :
  List.length xs = List.length ms ->
  List.length (map fst (filter snd (combine xs ms))) = count_occ bool_dec ms true.
Proof.
  revert ms; induction xs as [|x xs IH]; intros [|m ms]; simpl; intros E;
    try discriminate; [reflexivity|].
  destruct m; simpl.
  - f_equal; apply IH; lia.
  - apply IH; lia.
Qed.

Lemma bool_index_length {A} (a : Raster A) (mask : Raster bool) (sel : list A) :
  bool_index a mask = Ok sel ->
  shape a = shape mask /\
  sel = map fst (filter snd (combine (List.concat a) (List.concat mask))) /\
  List.length sel = count_occ bool_dec (List.concat mask) true.
Proof.
  unfold bool_index.
  destruct (list_eq_dec Nat.eq_dec (shape a) (shape mask)) as [E|]; [|discriminate].
  intros Hsel; inversion Hsel; subst.
  repeat split; [exact E|].
  apply select_length, shape_concat_length; exact E.
Qed.

Lemma valid_count (v : Raster (option Q)) :
  count_occ bool_dec (List.concat (valid_mask v)) true = List.length (select_valid v).
Proof.
  unfold select_valid, valid_mask.
  rewrite <- concat_map.
  induction (List.concat v) as [|c cs IH]; simpl; [reflexivity|].
  destruct c as [q|]; simpl; rewrite IH; reflexivity.
Qed.

(** [select_valid] is the selection of the velocity raster by its own
    mask. *)
Lemma select_valid_bool_index (v : Raster (option Q)) :
  bool_index v (valid_mask v) = Ok (map Some (select_valid v)).
Proof.
  unfold bool_index.
  destruct (list_eq_dec Nat.eq_dec (shape v) (shape (valid_mask v))) as [_|Hne];
    [|exfalso; apply Hne; symmetry; apply valid_mask_shape].
  f_equal.
  unfold select_valid, valid_mask.
  rewrite <- concat_map.
  induction (List.concat v) as [|c cs IH]; simpl; [reflexivity|].
  destruct c as [q|]; simpl; rewrite IH; reflexivity.
Qed.

Lemma select_nothing {A} (xs : list A) (ms : list bool) :
  count_occ bool_dec ms true = 0%nat ->
  map fst (filter snd (combine xs ms)) = [].
Proof.
  revert ms; induction xs as [|x xs IH]; intros [|m ms]; simpl; intros E;
    try reflexivity.
  destruct m; simpl in *; [discriminate | apply IH; exact E].
Qed.

(** ** The data read by main *)

Lemma for_each_scaled {A} (sel : A -> result (list Q)) (xs : list A) (ys : Raster Q) :
  for_each (fun a => row <- sel a ;; Ok (map to_cm row)) xs = Ok ys ->
  exists raw, for_each sel xs = Ok raw /\ ys = map (map to_cm) raw.
Proof.
  revert ys; induction xs as [|x xs IH]; simpl; intros ys Hrun.
  - inversion Hrun; exists []; split; reflexivity.
  - destruct (sel x) as [row|e]; simpl in Hrun; [|discriminate].
    destruct (for_each _ xs) as [ys'|e]; simpl in Hrun; [|discriminate].
    destruct (IH ys' eq_refl) as (raw & Hraw & Eys).
    inversion Hrun; subst.
    exists (row :: raw); rewrite Hraw; split; reflexivity.
Qed.

Lemma np_min_scaled (raw : Raster Q) (m : Q) :
  np_min (map (map to_cm) raw) = Ok m ->
  exists lo, np_min raw = Ok lo /\ m = to_cm lo.
Proof.
  unfold np_min. rewrite <- concat_map.
  destruct (List.concat raw) as [|x xs]; simpl; intros E; [discriminate|].
  inversion E. exists (least xs x); split; [reflexivity | apply least_to_cm].
Qed.

Lemma np_max_scaled (raw : Raster Q) (m : Q) :
  np_max (map (map to_cm) raw) = Ok m ->
  exists hi, np_max raw = Ok hi /\ m = to_cm hi.
Proof.
  unfold np_max. rewrite <- concat_map.
  destruct (List.concat raw) as [|x xs]; simpl; intros E; [discriminate|].
  inversion E. exists (greatest xs x); split; [reflexivity | apply greatest_to_cm].
Qed.

Lemma py_min_scaled (raw : list Q) (m : Q) :
  py_min (map to_cm raw) = Ok m -> exists lo, py_min raw = Ok lo /\ m = to_cm lo.
Proof.
  destruct raw as [|x xs]; simpl; intros E; [discriminate|].
  inversion E. exists (least xs x); split; [reflexivity | apply least_to_cm].
Qed.

Lemma py_max_scaled (raw : list Q) (m : Q) :
  py_max (map to_cm raw) = Ok m -> exists hi, py_max raw = Ok hi /\ m = to_cm hi.
Proof.
  destruct raw as [|x xs]; simpl; intros E; [discriminate|].
  inversion E. exists (greatest xs x); split; [reflexivity | apply greatest_to_cm].
Qed.

(** What a successful [read_data] has computed. *)
Lemma read_data_inv (inps : Inputs) (d : Data) :
  read_data inps = Ok d ->
  let mask := valid_mask (vel_data inps) in
  dates d = times inps /\
  vel d = map to_cm (select_valid (vel_data inps)) /\
  for_each (fun a => row <- bool_index a mask ;; Ok (map to_cm row)) (ts_data inps)
    = Ok (ts d) /\
  np_min (ts d) = Ok (ts_min d) /\
  np_max (ts d) = Ok (ts_max d) /\
  match vlim inps with
  | None => py_min (vel d) = Ok (vmin (norm d)) /\ py_max (vel d) = Ok (vmax (norm d))
  | Some (lo, hi) => vmin (norm d) = lo /\ vmax (norm d) = hi
  end /\
  cmap d = match colormap inps with None => "jet" | Some name => name end /\
  exists lats lons,
    bool_index (fst (get_lat_lon (metadata inps))) mask = Ok lats /\
    bool_index (snd (get_lat_lon (metadata inps))) mask = Ok lons /\
    coords d = combine lats lons.
Proof.
  intros Hread mask; unfold read_data in Hread; fold mask in Hread.
  run_step Hread ts0 Hts. run_step Hread lo Hmin. run_step Hread hi Hmax.
  destruct (vlim inps) as [[a b]|] eqn:Hlim; cbn [rbind] in Hread.
  - run_step Hread lats Hlat. run_step Hread lons Hlon.
    inversion Hread; subst; simpl.
    repeat split; try assumption; try reflexivity.
    exists lats, lons; repeat split; reflexivity.
  - run_step Hread lim Hl. run_step Hl a Ha. run_step Hl b Hb.
    run_step Hread lats Hlat. run_step Hread lons Hlon.
    inversion Hl; inversion Hread; subst; simpl.
    repeat split; try assumption; try reflexivity.
    exists lats, lons; repeat split; reflexivity.
Qed.

Lemma coords_length (inps : Inputs) (d : Data) :
  read_data inps = Ok d ->
  List.length (coords d) = List.length (select_valid (vel_data inps)) /\
  List.length (vel d) = List.length (select_valid (vel_data inps)).
Proof.
  intros Hread.
  destruct (read_data_inv _ _ Hread) as (_ & Hvel & _ & _ & _ & _ & _ & lats & lons & Hlat & Hlon & Hc).
  apply bool_index_length in Hlat; destruct Hlat as (_ & _ & Llat).
  apply bool_index_length in Hlon; destruct Hlon as (_ & _ & Llon).
  rewrite valid_count in Llat, Llon.
  rewrite Hc, length_combine, Llat, Llon, Hvel, length_map.
  split; [apply Nat.min_id | reflexivity].
Qed.

(** ** Placemarks *)

Section Pipeline.

Context {P : Platform}.

Lemma list_get_nth {A} (xs : list A) (i : nat) (x : A) :
  list_get xs i = Ok x <-> nth_error xs i = Some x.
Proof.
  unfold list_get; destruct (nth_error xs i); split; intros E;
    inversion E; reflexivity.
Qed.

(** What a successful [placemark] is made of. *)
Lemma placemark_inv (d : Data) (i : nat) (pm : Xml) :
  placemark d i = Ok pm ->
  exists lat lon v colormap x hex rows,
    nth_error (coords d) i = Some (lat, lon) /\
    nth_error (vel d) i = Some v /\
    get_cmap (cmap d) = Ok colormap /\
    Normalize_call (norm d) v = Ok x /\
    kml_color (colormap x) = Ok hex /\
    js_rows d i = Ok rows /\
    pm = node "Placemark"
           [ icon_style hex;
             leaf "description"
               (js_head ++ String.concat "" rows ++ js_tail (ts_min d) (ts_max d));
             point lon lat ].
Proof.
  unfold placemark; intros Hpm.
  run_step Hpm c Hc. run_step Hpm v Hv. run_step Hpm colormap Hmap.
  run_step Hpm x Hx. run_step Hpm hex Hhex. run_step Hpm rows Hrows.
  inversion Hpm; subst; clear Hpm.
  destruct c as [lat lon].
  exists lat, lon, v, colormap, x, hex, rows.
  apply list_get_nth in Hc, Hv.
  repeat split; assumption.
Qed.

(** The rows of a chart: one per date, each the date and the displacement
    of the pixel at that date. *)
Lemma js_rows_inv (d : Data) (i : nat) (rows : list string) :
  js_rows d i = Ok rows ->
  List.length rows = List.length (dates d) /\
  forall j line, nth_error rows j = Some line ->
    exists date row displacement,
      nth_error (dates d) j = Some date /\
      nth_error (ts d) j = Some row /\
      nth_error row i = Some displacement /\
      line = date_displacement_string date displacement.
Proof.
  unfold js_rows; intros Hrows.
  pose proof (for_each_length _ _ _ Hrows) as Hlen.
  rewrite py_range_length in Hlen.
  assert (Hn : range_length 0 (List.length (dates d)) 1 = List.length (dates d)).
  { unfold range_length. destruct (Nat.ltb_spec 0 (List.length (dates d))); [|lia].
    rewrite Nat.div_1_r; lia. }
  rewrite Hn in Hlen.
  split; [exact Hlen|].
  intros j line Hj.
  assert (Hlt : (j < List.length rows)%nat) by (apply nth_error_Some; congruence).
  destruct (for_each_nth _ _ _ Hrows j (0 + j * 1)%nat) as (line' & Hline & Hbody).
  { apply py_range_nth; rewrite Hn; lia. }
  rewrite Hj in Hline; inversion Hline; subst line'; clear Hline.
  replace (0 + j * 1)%nat with j in Hbody by lia.
  run_step Hbody date Hdate. run_step Hbody row Hrow. run_step Hbody y Hy.
  inversion Hbody; subst.
  apply list_get_nth in Hdate, Hrow, Hy.
  exists date, row, y; repeat split; assumption.
Qed.

(** The loop runs the body on the pixels 0, 10, 20, ... *)
Lemma placemarks_inv (d : Data) (pms : list Xml) :
  placemarks d = Ok pms ->
  List.length pms = range_length 0 (List.length (coords d)) 10 /\
  forall k pm, nth_error pms k = Some pm ->
    (k * 10 < List.length (coords d))%nat /\ placemark d (k * 10) = Ok pm.
Proof.
  unfold placemarks; intros Hrun.
  pose proof (for_each_length _ _ _ Hrun) as Hlen.
  rewrite py_range_length in Hlen.
  split; [exact Hlen|].
  intros k pm Hk.
  assert (Hlt : (k < List.length pms)%nat) by (apply nth_error_Some; congruence).
  destruct (for_each_nth _ _ _ Hrun k (0 + k * 10)%nat) as (pm' & Hpm & Hbody).
  { apply py_range_nth; lia. }
  rewrite Hk in Hpm; inversion Hpm; subst pm'.
  split; [|exact Hbody].
  destruct (placemark_inv _ _ _ Hbody) as (lat & lon & _ & _ & _ & _ & _ & Hc & _).
  apply nth_error_Some; simpl in Hc; congruence.
Qed.

(** C5: the chart value range is one pair, the minimum and the maximum over
    the whole masked time-series field (every date, every valid cell), fixed
    by [read_data] before the loop over the pixels; whatever norm the
    colorbar leaves, the description of every placemark ends with the chart
    options holding this very pair, so any two placemarks report the same
    bounds. *)
Theorem shared_chart_range (inps : Inputs) (d : Data) (n : Normalize)
        (pms : list Xml) :
  read_data inps = Ok d ->
  placemarks (set_norm d n) = Ok pms ->
  for_each (fun a => row <- bool_index a (valid_mask (vel_data inps)) ;;
                     Ok (map to_cm row)) (ts_data inps) = Ok (ts d) /\
  np_min (ts d) = Ok (ts_min d) /\
  np_max (ts d) = Ok (ts_max d) /\
  In (ts_min d) (List.concat (ts d)) /\
  Forall (fun y => ts_min d <= y) (List.concat (ts d)) /\
  In (ts_max d) (List.concat (ts d)) /\
  Forall (fun y => y <= ts_max d) (List.concat (ts d)) /\
  Forall (fun pm => exists rows,
            text_at ["description"] pm =
            Some (js_head ++ String.concat "" rows ++
                  dq ++ dq ++ "," ++ nl ++ "{" ++
                  "valueRange: [" ++ float_str (ts_min d) ++ "," ++
                  float_str (ts_max d) ++ "]," ++
                  "ylabel: '[cm]'," ++ "});" ++ "</script>" ++ "]]>"))
         pms.
Proof.
  intros Hread Hpms.
  destruct (read_data_inv _ _ Hread) as (_ & _ & Hts & Hmin & Hmax & _).
  destruct (np_min_spec _ _ Hmin) as [Imin Lmin].
  destruct (np_max_spec _ _ Hmax) as [Imax Lmax].
  repeat split; try assumption.
  apply Forall_forall; intros pm Hin.
  apply In_nth_error in Hin; destruct Hin as [k Hk].
  destruct (placemarks_inv _ _ Hpms) as [_ Hnth].
  destruct (Hnth k pm Hk) as [_ Hpm].
  destruct (placemark_inv _ _ _ Hpm) as (lat & lon & v & cm & x & hex & rows & _ & _ & _ & _ & _ & _ & E).
  exists rows; rewrite E; reflexivity.
Qed.

(** C6, amended: the stride is the constant 10 of the loop.  With n valid
    pixels (the cells of the velocity raster that are not NaN) the loop emits
    exactly ceil(n / 10) placemarks, the k-th one built from the valid pixel
    of index 10 k, the valid pixels being numbered in the row-major scan
    order of the mask; this holds whatever norm the colorbar leaves. *)
Theorem placemarks_every_tenth (inps : Inputs) (d : Data) (norm' : Normalize)
        (pms : list Xml) :
  read_data inps = Ok d ->
  placemarks (set_norm d norm') = Ok pms ->
  let n := List.length (select_valid (vel_data inps)) in
  let mask := List.concat (valid_mask (vel_data inps)) in
  let scan := fun grid : Raster Q =>
                map fst (filter snd (combine (List.concat grid) mask)) in
  List.length (coords d) = n /\
  coords d = combine (scan (fst (get_lat_lon (metadata inps))))
                     (scan (snd (get_lat_lon (metadata inps)))) /\
  Z.of_nat (List.length pms) = Qceiling (inject_Z (Z.of_nat n) / 10) /\
  forall k, (k < List.length pms)%nat ->
    (k * 10 < n)%nat /\
    exists pm, nth_error pms k = Some pm /\
               placemark (set_norm d norm') (k * 10) = Ok pm.
Proof.
  intros Hread Hpms n mask scan.
  destruct (coords_length _ _ Hread) as [Hc _]; fold n in Hc.
  destruct (placemarks_inv _ _ Hpms) as [Hlen Hnth].
  cbn [set_norm coords] in Hlen, Hnth.
  rewrite Hc in Hlen, Hnth.
  split; [exact Hc|].
  split.
  { destruct (read_data_inv _ _ Hread)
      as (_ & _ & _ & _ & _ & _ & _ & lats & lons & Hlat & Hlon & Hcoords).
    apply bool_index_length in Hlat; destruct Hlat as (_ & Elat & _).
    apply bool_index_length in Hlon; destruct Hlon as (_ & Elon & _).
    rewrite Hcoords, Elat, Elon; reflexivity. }
  split.
  - rewrite Hlen. apply (range_length_ceiling n 10); lia.
  - intros k Hk.
    destruct (nth_error pms k) as [pm|] eqn:Hpm;
      [|apply nth_error_None in Hpm; lia].
    destruct (Hnth k pm Hpm) as [Hlt Hbody].
    split; [exact Hlt|].
    exists pm; split; [reflexivity | exact Hbody].
Qed.

(** C7: the point of every placemark writes the longitude first and the
    latitude second: for the pixel with the internal pair (lat, lon) the
    coordinates text is "lon,lat". *)
Theorem point_coordinates_lon_lat (d : Data) (pms : list Xml) (k : nat) (pm : Xml) :
  placemarks d = Ok pms ->
  nth_error pms k = Some pm ->
  exists lat lon,
    nth_error (coords d) (k * 10) = Some (lat, lon) /\
    text_at ["Point"; "coordinates"] pm = Some (float_str lon ++ "," ++ float_str lat).
Proof.
  intros Hpms Hk.
  destruct (placemarks_inv _ _ Hpms) as [_ Hnth].
  destruct (Hnth k pm Hk) as [_ Hpm].
  destruct (placemark_inv _ _ _ Hpm) as (lat & lon & v & cm & x & hex & rows & Hc & _ & _ & _ & _ & _ & E).
  exists lat, lon; split; [exact Hc|].
  rewrite E; reflexivity.
Qed.

(** C9: every stored velocity and displacement is multiplied by 100 right
    after masking, and only the scaled values are used: the velocities and
    the time series of [main] are the masked stored values times 100; the
    chart range is 100 times the minimum and the maximum of the masked
    stored series; without [--vlim] the colour limits given to the norm are
    100 times the minimum and the maximum of the masked stored velocities;
    the colour of a placemark is the colour of its stored velocity times 100
    under the norm that the colorbar leaves from these limits, and every
    displacement in its chart is the stored one times 100; the document of
    these placemarks is the one that the run writes. *)
Theorem centimetres_throughout (inps : Inputs) (d : Data) (norm' : Normalize) :
  read_data inps = Ok d ->
  ColorbarBase (cmap d) (norm d) = Ok norm' ->
  let raw_vel := select_valid (vel_data inps) in
  exists raw_ts lo hi,
    for_each (fun a => bool_index a (valid_mask (vel_data inps))) (ts_data inps)
      = Ok raw_ts /\
    vel d = map (fun x => x * 100) raw_vel /\
    ts d = map (map (fun x => x * 100)) raw_ts /\
    np_min raw_ts = Ok lo /\ np_max raw_ts = Ok hi /\
    ts_min d = lo * 100 /\ ts_max d = hi * 100 /\
    (vlim inps = None ->
     exists vlo vhi,
       py_min raw_vel = Ok vlo /\ py_max raw_vel = Ok vhi /\
       norm d = {| vmin := vlo * 100; vmax := vhi * 100 |} /\
       process_values callback_depth {| vmin := vlo * 100; vmax := vhi * 100 |}
         = Ok norm') /\
    (forall kml,
       kml_document inps (set_norm d norm') = Ok kml ->
       snd (run inps) = Ok tt /\
       In (WriteFile (kml_file inps) (etree_tostring kml)) (fst (run inps))) /\
    forall pms k pm,
      placemarks (set_norm d norm') = Ok pms ->
      nth_error pms k = Some pm ->
      exists v colormap x hex rows,
        nth_error raw_vel (k * 10) = Some v /\
        get_cmap (cmap d) = Ok colormap /\
        Normalize_call norm' (v * 100) = Ok x /\
        kml_color (colormap x) = Ok hex /\
        text_at ["Style"; "IconStyle"; "color"] pm = Some hex /\
        text_at ["description"] pm =
          Some (js_head ++ String.concat "" rows ++
                dq ++ dq ++ "," ++ nl ++ "{" ++
                "valueRange: [" ++ float_str (lo * 100) ++ "," ++
                float_str (hi * 100) ++ "]," ++
                "ylabel: '[cm]'," ++ "});" ++ "</script>" ++ "]]>") /\
        List.length rows = List.length (times inps) /\
        forall j line, nth_error rows j = Some line ->
          exists date row y,
            nth_error (times inps) j = Some date /\
            nth_error raw_ts j = Some row /\
            nth_error row (k * 10) = Some y /\
            line = dq ++ date ++ ", " ++ float_str (y * 100) ++ "\n" ++ dq ++
                   " + " ++ nl.
Proof.
  intros Hread Hbar raw_vel; subst raw_vel.
  destruct (read_data_inv _ _ Hread) as (Hdates & Hvel & Hts & Hmin & Hmax & Hlim & _).
  destruct (for_each_scaled _ _ _ Hts) as (raw_ts & Hraw & Ets).
  rewrite Ets in Hmin, Hmax.
  destruct (np_min_scaled _ _ Hmin) as (lo & Hlo & Elo).
  destruct (np_max_scaled _ _ Hmax) as (hi & Hhi & Ehi).
  exists raw_ts, lo, hi.
  repeat split; try assumption.
  - intros Hnone; rewrite Hnone, Hvel in Hlim; destruct Hlim as [Ha Hb].
    destruct (py_min_scaled _ _ Ha) as (vlo & Hvlo & Evlo).
    destruct (py_max_scaled _ _ Hb) as (vhi & Hvhi & Evhi).
    exists vlo, vhi.
    assert (En : norm d = {| vmin := vlo * 100; vmax := vhi * 100 |}).
    { destruct (norm d) as [a b]; simpl in Evlo, Evhi; subst a b; reflexivity. }
    repeat split; try assumption.
    unfold ColorbarBase in Hbar.
    destruct (get_cmap (cmap d)) as [cm0|e]; [|discriminate Hbar].
    rewrite En in Hbar; exact Hbar.
  - unfold run, main, bind, lift; rewrite Hread.
    unfold colorbar, bind, lift; rewrite Hbar.
    unfold ret; cbn [emit app]; cbv beta iota.
    rewrite H.
    unfold export, bind, emit; cbn [app fst snd]. reflexivity.
  - unfold run, main, bind, lift; rewrite Hread.
    unfold colorbar, bind, lift; rewrite Hbar.
    unfold ret; cbn [emit app]; cbv beta iota.
    rewrite H.
    unfold export, bind, emit; cbn [app fst snd].
    do 8 right; left; reflexivity.
  - intros pms k pm Hpms Hk.
    destruct (placemarks_inv _ _ Hpms) as [_ Hnth].
    destruct (Hnth k pm Hk) as [_ Hpm].
    destruct (placemark_inv _ _ _ Hpm)
      as (lat & lon & v' & cm & x & hex & rows & _ & Hv & Hcm & Hx & Hhex & Hrows & E).
    cbn [set_norm vel cmap norm ts_min ts_max] in Hv, Hcm, Hx, E.
    rewrite Hvel, nth_error_map in Hv.
    destruct (nth_error (select_valid _) (k * 10)) as [v|] eqn:Hraw_v; [|discriminate].
    inversion Hv; subst v'; clear Hv.
    destruct (js_rows_inv _ _ _ Hrows) as [Hlen Hline].
    cbn [set_norm dates ts] in Hlen, Hline.
    exists v, cm, x, hex, rows.
    rewrite Hdates in Hlen.
    repeat split; try assumption.
    + rewrite E; reflexivity.
    + rewrite E, Elo, Ehi; reflexivity.
    + intros j line Hj.
      destruct (Hline j line Hj) as (date & row' & y' & Hd & Hr & Hy & El).
      rewrite Hdates in Hd.
      rewrite Ets, nth_error_map in Hr.
      destruct (nth_error raw_ts j) as [row|] eqn:Hrow; [|discriminate].
      inversion Hr; subst row'; clear Hr.
      rewrite nth_error_map in Hy.
      destruct (nth_error row (k * 10)) as [y|] eqn:Hy0; [|discriminate].
      inversion Hy; subst y'; clear Hy.
      exists date, row, y; repeat split; assumption.
Qed.

(** ** Failing runs *)

Lemma select_valid_blank (v : Raster (option Q)) :
  Forall (fun c => c = None) (List.concat v) -> select_valid v = [].
Proof.
  unfold select_valid.
  induction (List.concat v) as [|c cs IH]; intros Hall; [reflexivity|].
  inversion Hall as [|? ? Hc Hcs]; subst; simpl. apply IH; exact Hcs.
Qed.

Lemma bool_index_blank (v : Raster (option Q)) (a : Raster Q) :
  Forall (fun c => c = None) (List.concat v) ->
  shape a = shape v ->
  bool_index a (valid_mask v) = Ok [].
Proof.
  intros Hall Hshape; unfold bool_index.
  destruct (list_eq_dec Nat.eq_dec (shape a) (shape (valid_mask v))) as [_|Hne];
    [|exfalso; apply Hne; rewrite valid_mask_shape; exact Hshape].
  rewrite select_nothing; [reflexivity|].
  rewrite valid_count, (select_valid_blank v Hall); reflexivity.
Qed.

Lemma concat_blank {A B} (xs : list A) :
  List.concat (map (fun _ : A => @nil B) xs) = [].
Proof. induction xs as [|x xs IH]; simpl; [|rewrite IH]; reflexivity. Qed.

(** C10: when every velocity cell is NaN the mask selects nothing, the
    minimum of the masked time series is taken over no value at all and
    raises; the run ends there, with no colorbar image, no document and no
    file written (the log of events is empty). *)
Theorem blank_velocity_fails (inps : Inputs) :
  Forall (fun c => c = None) (List.concat (vel_data inps)) ->
  Forall (fun a => shape a = shape (vel_data inps)) (ts_data inps) ->
  run inps =
  ([], Raise (ValueError
         "zero-size array to reduction operation minimum which has no identity")).
Proof.
  intros Hblank Hshape.
  assert (Hts : for_each
                  (fun a => row <- bool_index a (valid_mask (vel_data inps)) ;;
                            Ok (map to_cm row)) (ts_data inps)
                = Ok (map (fun _ => []) (ts_data inps))).
  { apply for_each_ok; intros a Ha.
    rewrite Forall_forall in Hshape.
    rewrite (bool_index_blank _ _ Hblank (Hshape a Ha)); reflexivity. }
  unfold run, main, bind, lift, read_data.
  rewrite Hts; cbn [rbind].
  unfold np_min; rewrite concat_blank; reflexivity.
Qed.

(** C8: a run with a colormap name that Matplotlib does not know never
    returns: it raises, and nothing has been written when it does (the log of
    events is empty); once the data are read the exception is the one of the
    colormap lookup for that very name, no other colormap being tried.  With
    no name given the colormap is "jet". *)
Theorem unknown_colormap_fails :
  (forall (inps : Inputs) (name : string),
     colormap inps = Some name ->
     registered name = None ->
     fst (run inps) = [] /\
     (exists e, snd (run inps) = Raise e) /\
     (forall d, read_data inps = Ok d ->
        snd (run inps) =
        Raise (ValueError ("Colormap " ++ name ++ " is not recognized")))) /\
  (forall (inps : Inputs) (d : Data),
     colormap inps = None -> read_data inps = Ok d ->
     cmap d = "jet" /\ get_cmap (cmap d) = get_cmap "jet").
Proof.
  split.
  - intros inps name Hname Hreg.
    unfold run, main, bind, lift.
    destruct (read_data inps) as [d|e] eqn:Hread.
    + destruct (read_data_inv _ _ Hread) as (_ & _ & _ & _ & _ & _ & Hcmap & _).
      rewrite Hname in Hcmap.
      unfold colorbar, bind, lift, ColorbarBase, get_cmap.
      rewrite Hcmap, Hreg; simpl.
      split; [reflexivity|]. split; [eexists; reflexivity|].
      intros d' Hd'; reflexivity.
    + simpl. split; [reflexivity|]. split; [eexists; reflexivity|].
      intros d' Hd'; discriminate Hd'.
  - intros inps d Hnone Hread.
    destruct (read_data_inv _ _ Hread) as (_ & _ & _ & _ & _ & _ & Hcmap & _).
    rewrite Hnone in Hcmap; rewrite Hcmap; split; reflexivity.
Qed.

End Pipeline.

(** ** The 3x3 grid *)

(** C2, as the claim states it, fails on the 3x3 grid: the second latitude
    row is 17/2, not 9. *)
Lemma grid3_claimed_values_refuted :
  ~ (grid_eq (fst (get_lat_lon grid3_meta)) [[10; 10; 10]; [9; 9; 9]; [8; 8; 8]] /\
     grid_eq (snd (get_lat_lon grid3_meta))
             [[20; 21; 22]; [20; 21; 22]; [20; 21; 22]] /\
     exists pms, @placemarks plain grid3_data = Ok pms /\ List.length pms = 8%nat).
Proof.
  intros [Hlat _].
  inversion Hlat as [|r0 c0 rs cs _ Hrest]; subst.
  inversion Hrest as [|r1 c1 rs' cs' Hrow _]; subst.
  inversion Hrow as [|x y xs ys Hxy _]; subst.
  vm_compute in Hxy; discriminate Hxy.
Qed.

(** C2, amended: on the 3x3 grid with origin (10, 20), steps -1 and 1 and
    a missing centre, both grids have shape (3, 3), the latitude is constant
    along a row and 10 in the first row, the longitude is constant along a
    column and 20 in the first column, the mask selects the 8 cells around
    the centre, and the run returns with exactly one placemark, the one of
    the first valid pixel, at "20.0,10.0": the loop takes every tenth valid
    pixel. *)
Theorem grid3_scenario :
  let lats := fst (get_lat_lon grid3_meta) in
  let lons := snd (get_lat_lon grid3_meta) in
  shape lats = [3; 3; 3]%nat /\ shape lons = [3; 3; 3]%nat /\
  (exists y1 y2, grid_eq lats [[10; 10; 10]; [y1; y1; y1]; [y2; y2; y2]]) /\
  (exists x1 x2, grid_eq lons [[20; x1; x2]; [20; x1; x2]; [20; x1; x2]]) /\
  valid_mask grid3_vel =
    [[true; true; true]; [true; false; true]; [true; true; true]] /\
  List.length (select_valid grid3_vel) = 8%nat /\
  read_data grid3 = Ok grid3_data /\
  List.length (coords grid3_data) = 8%nat /\
  @placemarks plain grid3_data = Ok grid3_placemarks /\
  List.length grid3_placemarks = 1%nat /\
  map (text_at ["Point"; "coordinates"]) grid3_placemarks = [Some "20.0,10.0"] /\
  snd (@run plain grid3) = Ok tt.
Proof.
  cbv zeta.
  split; [vm_compute; reflexivity|].
  split; [vm_compute; reflexivity|].
  split.
  { exists (17 # 2), 7. repeat constructor; vm_compute; reflexivity. }
  split.
  { exists (43 # 2), 23. repeat constructor; vm_compute; reflexivity. }
  repeat split; vm_compute; reflexivity.
Qed.

(** C6, as the claim states it, fails: the loop has no stride to configure;
    on the 3x3 grid (8 valid pixels) a stride of 1 would give 8 placemarks,
    and the run emits 1. *)
Lemma configurable_stride_refuted :
  ~ (forall (stride : nat) (inps : Inputs) (d : Data) (pms : list Xml),
       (0 < stride)%nat ->
       read_data inps = Ok d ->
       @placemarks plain d = Ok pms ->
       Z.of_nat (List.length pms) =
       Qceiling (inject_Z (Z.of_nat (List.length (select_valid (vel_data inps)))) /
                 inject_Z (Z.of_nat stride))).
Proof.
  intros Hclaim.
  specialize (Hclaim 1%nat grid3 grid3_data grid3_placemarks).
  assert (H : Z.of_nat (List.length grid3_placemarks) =
              Qceiling (inject_Z (Z.of_nat (List.length (select_valid (vel_data grid3)))) /
                        inject_Z (Z.of_nat 1))).
  { apply Hclaim; [lia | vm_compute; reflexivity | vm_compute; reflexivity]. }
  vm_compute in H; discriminate H.
Qed.

(** ** The theorems at concrete inputs *)

Lemma get_lat_lon_interpolates_witness :
  (1 < LENGTH grid3_meta)%Z /\ (1 < WIDTH grid3_meta)%Z /\
  cell_at (fst (get_lat_lon grid3_meta)) 2 2 == 10 + -1 * inject_Z 3 /\
  cell_at (snd (get_lat_lon grid3_meta)) 2 2 == 20 + 1 * inject_Z 3.
Proof.
  assert (HL : (1 < LENGTH grid3_meta)%Z) by reflexivity.
  assert (HW : (1 < WIDTH grid3_meta)%Z) by reflexivity.
  destruct (get_lat_lon_interpolates grid3_meta HL HW)
    as (_ & _ & _ & _ & _ & Hlat & Hlon).
  repeat split; assumption.
Defined.

Lemma kml_color_abgr_witness :
  in_unit (red (ramp (1 # 2))) = true /\
  exists s, kml_color (ramp (1 # 2)) = Ok s /\ String.length s = 8%nat /\
            hex_value (substring 6 2 s) = 128%N.
Proof.
  split; [reflexivity|].
  destruct (kml_color_abgr (ramp (1 # 2)) eq_refl eq_refl eq_refl eq_refl)
    as (s & Hs & Hlen & _ & _ & _ & _ & _ & Hred & _).
  exists s; repeat split; assumption.
Defined.

Lemma Normalize_call_affine_witness :
  0 < 10 /\
  magnitude_floor <= Qmax (Qabs 0) (Qabs 10) /\
  Qmax (Qabs 0) (Qabs 10) * tiny < 10 - 0 /\
  process_values callback_depth {| vmin := 0; vmax := 10 |}
    = Ok {| vmin := 0; vmax := 10 |} /\
  Normalize_call {| vmin := 0; vmax := 10 |} 5 = Ok ((5 - 0) / (10 - 0)).
Proof.
  assert (Hlt : 0 < 10) by reflexivity.
  assert (Hmag : magnitude_floor <= Qmax (Qabs 0) (Qabs 10))
    by (vm_compute; discriminate).
  assert (Hwide : Qmax (Qabs 0) (Qabs 10) * tiny < 10 - 0)
    by (vm_compute; reflexivity).
  destruct (Normalize_call_affine 0 10 Hlt Hmag Hwide) as (Hleft & _ & Hcall & _).
  split; [exact Hlt|]. split; [exact Hmag|]. split; [exact Hwide|].
  split; [exact Hleft | apply Hcall].
Defined.

Lemma shared_chart_range_witness :
  read_data grid5 = Ok grid5_data /\
  @ColorbarBase plain (cmap grid5_data) (norm grid5_data) = Ok (norm grid5_data) /\
  @placemarks plain (set_norm grid5_data (norm grid5_data)) = Ok grid5_placemarks /\
  np_min (ts grid5_data) = Ok (ts_min grid5_data) /\
  Forall (fun pm => exists rows,
            text_at ["description"] pm =
            Some (js_head ++ String.concat "" rows ++
                  @js_tail plain (ts_min grid5_data) (ts_max grid5_data)))
         grid5_placemarks.
Proof.
  assert (Hread : read_data grid5 = Ok grid5_data) by (vm_compute; reflexivity).
  assert (Hbar : @ColorbarBase plain (cmap grid5_data) (norm grid5_data)
                 = Ok (norm grid5_data)) by (vm_compute; reflexivity).
  assert (Hpms : @placemarks plain (set_norm grid5_data (norm grid5_data))
                 = Ok grid5_placemarks)
    by (vm_compute; reflexivity).
  destruct (@shared_chart_range plain grid5 grid5_data (norm grid5_data)
              grid5_placemarks Hread Hpms)
    as (_ & Hmin & _ & _ & _ & _ & _ & Hall).
  repeat split; assumption.
Defined.

Lemma placemarks_every_tenth_witness :
  read_data grid5 = Ok grid5_data /\
  @placemarks plain (set_norm grid5_data (norm grid5_data)) = Ok grid5_placemarks /\
  List.length (coords grid5_data) = 25%nat /\
  Z.of_nat (List.length grid5_placemarks) = Qceiling (inject_Z 25 / 10).
Proof.
  assert (Hread : read_data grid5 = Ok grid5_data) by (vm_compute; reflexivity).
  assert (Hpms : @placemarks plain (set_norm grid5_data (norm grid5_data))
                 = Ok grid5_placemarks)
    by (vm_compute; reflexivity).
  destruct (@placemarks_every_tenth plain grid5 grid5_data (norm grid5_data)
              grid5_placemarks Hread Hpms)
    as (Hn & _ & Hceil & _).
  repeat split; assumption.
Defined.

Lemma point_coordinates_lon_lat_witness :
  @placemarks plain grid5_data = Ok grid5_placemarks /\
  exists pm lat lon,
    nth_error grid5_placemarks 1 = Some pm /\
    nth_error (coords grid5_data) 10 = Some (lat, lon) /\
    text_at ["Point"; "coordinates"] pm = Some (ratio_str lon ++ "," ++ ratio_str lat).
Proof.
  assert (Hpms : @placemarks plain grid5_data = Ok grid5_placemarks)
    by (vm_compute; reflexivity).
  split; [exact Hpms|].
  destruct (nth_error grid5_placemarks 1) as [pm|] eqn:Hpm; [|discriminate Hpm].
  destruct (@point_coordinates_lon_lat plain grid5_data grid5_placemarks 1 pm Hpms Hpm)
    as (lat & lon & Hc & Htext).
  exists pm, lat, lon; repeat split; assumption.
Defined.

Lemma centimetres_throughout_witness :
  read_data grid3 = Ok grid3_data /\
  @ColorbarBase plain (cmap grid3_data) (norm grid3_data) = Ok (norm grid3_data) /\
  vel grid3_data = map (fun x => x * 100) (select_valid (vel_data grid3)) /\
  exists lo hi, ts_min grid3_data = lo * 100 /\ ts_max grid3_data = hi * 100.
Proof.
  assert (Hread : read_data grid3 = Ok grid3_data) by (vm_compute; reflexivity).
  assert (Hbar : @ColorbarBase plain (cmap grid3_data) (norm grid3_data)
                 = Ok (norm grid3_data)) by (vm_compute; reflexivity).
  destruct (@centimetres_throughout plain grid3 grid3_data (norm grid3_data) Hread Hbar)
    as (raw & lo & hi & _ & Hvel & _ & _ & _ & Hlo & Hhi & _).
  split; [exact Hread|]. split; [exact Hbar|]. split; [exact Hvel|].
  exists lo, hi; split; assumption.
Defined.

Lemma unknown_colormap_fails_witness :
  colormap grid3_unknown = Some "no_such_map" /\
  ramp_only "no_such_map" = None /\
  fst (@run plain grid3_unknown) = [] /\
  snd (@run plain grid3_unknown) =
    Raise (ValueError ("Colormap " ++ "no_such_map" ++ " is not recognized")) /\
  cmap grid3_data = "jet".
Proof.
  assert (Hname : colormap grid3_unknown = Some "no_such_map") by reflexivity.
  assert (Hreg : @registered plain "no_such_map" = None) by reflexivity.
  destruct (@unknown_colormap_fails plain) as [Hfail Hdefault].
  destruct (Hfail grid3_unknown "no_such_map" Hname Hreg) as (Hlog & _ & Herr).
  assert (Hread : read_data grid3 = Ok grid3_data) by (vm_compute; reflexivity).
  destruct (Hdefault grid3 grid3_data eq_refl Hread) as [Hjet _].
  assert (Hread' : exists d, read_data grid3_unknown = Ok d)
    by (eexists; vm_compute; reflexivity).
  destruct Hread' as [d Hd].
  split; [exact Hname|]. split; [exact Hreg|]. split; [exact Hlog|].
  split; [exact (Herr d Hd) | exact Hjet].
Defined.

Lemma blank_velocity_fails_witness :
  Forall (fun c : option Q => c = None) (List.concat (vel_data grid3_blank)) /\
  Forall (fun a : Raster Q => shape a = shape (vel_data grid3_blank))
         (ts_data grid3_blank) /\
  @run plain grid3_blank =
  ([], Raise (ValueError
         "zero-size array to reduction operation minimum which has no identity")).
Proof.
  assert (Hblank : Forall (fun c : option Q => c = None)
                          (List.concat (vel_data grid3_blank)))
    by (repeat constructor).
  assert (Hshape : Forall (fun a : Raster Q => shape a = shape (vel_data grid3_blank))
                          (ts_data grid3_blank))
    by (repeat constructor).
  split; [exact Hblank|]. split; [exact Hshape|].
  apply (@blank_velocity_fails plain grid3_blank Hblank Hshape).
Defined.

(** * Further properties of the code *)

(** ** The grids of get_lat_lon *)

(** X1: in the grids of [get_lat_lon] the latitude depends on the row only
    and the longitude on the column only. *)
Theorem get_lat_lon_rows_and_columns (meta : Metadata) (r r' c c' : nat) :
  (r < mgrid_size (LENGTH meta))%nat -> (r' < mgrid_size (LENGTH meta))%nat ->
  (c < mgrid_size (WIDTH meta))%nat -> (c' < mgrid_size (WIDTH meta))%nat ->
  cell_at (fst (get_lat_lon meta)) r c = cell_at (fst (get_lat_lon meta)) r c' /\
  cell_at (snd (get_lat_lon meta)) r c = cell_at (snd (get_lat_lon meta)) r' c.
Proof.
  intros Hr Hr' Hc Hc'; unfold get_lat_lon.
  split.
  - destruct (mgrid2_cell (Y_FIRST meta)
                (Y_FIRST meta + Y_STEP meta * inject_Z (LENGTH meta)) (LENGTH meta)
                (X_FIRST meta)
                (X_FIRST meta + X_STEP meta * inject_Z (WIDTH meta)) (WIDTH meta)
                r c Hr Hc) as [E1 _].
    destruct (mgrid2_cell (Y_FIRST meta)
                (Y_FIRST meta + Y_STEP meta * inject_Z (LENGTH meta)) (LENGTH meta)
                (X_FIRST meta)
                (X_FIRST meta + X_STEP meta * inject_Z (WIDTH meta)) (WIDTH meta)
                r c' Hr Hc') as [E2 _].
    cbv zeta; rewrite E1, E2; reflexivity.
  - destruct (mgrid2_cell (Y_FIRST meta)
                (Y_FIRST meta + Y_STEP meta * inject_Z (LENGTH meta)) (LENGTH meta)
                (X_FIRST meta)
                (X_FIRST meta + X_STEP meta * inject_Z (WIDTH meta)) (WIDTH meta)
                r c Hr Hc) as [_ E1].
    destruct (mgrid2_cell (Y_FIRST meta)
                (Y_FIRST meta + Y_STEP meta * inject_Z (LENGTH meta)) (LENGTH meta)
                (X_FIRST meta)
                (X_FIRST meta + X_STEP meta * inject_Z (WIDTH meta)) (WIDTH meta)
                r' c Hr' Hc) as [_ E2].
    cbv zeta; rewrite E1, E2; reflexivity.
Qed.

(** X2: with more than one row, two neighbouring rows of the latitude grid
    differ by [Y_STEP * LENGTH / (LENGTH - 1)]: the LENGTH rows are spread
    over the span [Y_STEP * LENGTH], the last row included.  Likewise two
    neighbouring columns of the longitude grid differ by
    [X_STEP * WIDTH / (WIDTH - 1)]. *)
Theorem get_lat_lon_spacing (meta : Metadata) (r c : nat) :
  (1 < LENGTH meta)%Z -> (1 < WIDTH meta)%Z ->
  (r + 1 < Z.to_nat (LENGTH meta))%nat -> (c + 1 < Z.to_nat (WIDTH meta))%nat ->
  cell_at (fst (get_lat_lon meta)) (r + 1) c - cell_at (fst (get_lat_lon meta)) r c ==
    Y_STEP meta * inject_Z (LENGTH meta) / inject_Z (LENGTH meta - 1) /\
  cell_at (snd (get_lat_lon meta)) r (c + 1) - cell_at (snd (get_lat_lon meta)) r c ==
    X_STEP meta * inject_Z (WIDTH meta) / inject_Z (WIDTH meta - 1).
Proof.
  intros HL HW Hr Hc.
  assert (EH : mgrid_size (LENGTH meta) = Z.to_nat (LENGTH meta))
    by (apply mgrid_size_pos; exact HL).
  assert (EW : mgrid_size (WIDTH meta) = Z.to_nat (WIDTH meta))
    by (apply mgrid_size_pos; exact HW).
  assert (DL : ~ inject_Z (LENGTH meta - 1) == 0) by (apply inject_Z_nonzero; lia).
  assert (DW : ~ inject_Z (WIDTH meta - 1) == 0) by (apply inject_Z_nonzero; lia).
  unfold get_lat_lon; cbv zeta.
  set (lat0 := Y_FIRST meta). set (lon0 := X_FIRST meta).
  set (lat1 := lat0 + Y_STEP meta * inject_Z (LENGTH meta)).
  set (lon1 := lon0 + X_STEP meta * inject_Z (WIDTH meta)).
  destruct (mgrid2_cell lat0 lat1 (LENGTH meta) lon0 lon1 (WIDTH meta) r c)
    as [A1 B1]; [lia..|].
  destruct (mgrid2_cell lat0 lat1 (LENGTH meta) lon0 lon1 (WIDTH meta) (r + 1) c)
    as [A2 _]; [lia..|].
  destruct (mgrid2_cell lat0 lat1 (LENGTH meta) lon0 lon1 (WIDTH meta) r (c + 1))
    as [_ B2]; [lia..|].
  rewrite A1, A2, B1, B2.
  rewrite !mgrid_value_interp by assumption.
  rewrite !Nat2Z.inj_add, !inject_Z_plus; change (inject_Z (Z.of_nat 1)) with 1%Q.
  unfold lat1, lon1.
  split; field; assumption.
Qed.

(** X3: a grid of a single row is not interpolated: the step of the row
    axis stays 1 and every latitude is [Y_FIRST], whatever [Y_STEP] is; a
    grid of a single column has every longitude equal to [X_FIRST]. *)
Theorem get_lat_lon_single_line (meta : Metadata) :
  (Z.abs (LENGTH meta) = 1%Z ->
   shape (fst (get_lat_lon meta)) = [mgrid_size (WIDTH meta)] /\
   forall c, (c < mgrid_size (WIDTH meta))%nat ->
             cell_at (fst (get_lat_lon meta)) 0 c == Y_FIRST meta) /\
  (Z.abs (WIDTH meta) = 1%Z ->
   shape (snd (get_lat_lon meta)) = repeat 1%nat (mgrid_size (LENGTH meta)) /\
   forall r, (r < mgrid_size (LENGTH meta))%nat ->
             cell_at (snd (get_lat_lon meta)) r 0 == X_FIRST meta).
Proof.
  split; intros H1.
  - assert (S1 : mgrid_size (LENGTH meta) = 1%nat) by (unfold mgrid_size; rewrite H1; reflexivity).
    split.
    + unfold get_lat_lon; cbv zeta.
      match goal with |- shape (fst (mgrid2 ?a ?b ?n ?c ?d ?m)) = _ =>
        destruct (mgrid2_shape a b n c d m) as [E _]; rewrite E end.
      rewrite S1; reflexivity.
    + intros c Hc. unfold get_lat_lon; cbv zeta.
      match goal with |- cell_at (fst (mgrid2 ?a ?b ?n ?x ?y ?m)) _ _ == _ =>
        destruct (mgrid2_cell a b n x y m 0 c) as [E _]; [rewrite S1; lia | exact Hc |];
        rewrite E end.
      apply mgrid_value_first.
  - assert (S1 : mgrid_size (WIDTH meta) = 1%nat) by (unfold mgrid_size; rewrite H1; reflexivity).
    split.
    + unfold get_lat_lon; cbv zeta.
      match goal with |- shape (snd (mgrid2 ?a ?b ?n ?c ?d ?m)) = _ =>
        destruct (mgrid2_shape a b n c d m) as [_ E]; rewrite E end.
      rewrite S1; reflexivity.
    + intros r Hr. unfold get_lat_lon; cbv zeta.
      match goal with |- cell_at (snd (mgrid2 ?a ?b ?n ?x ?y ?m)) _ _ == _ =>
        destruct (mgrid2_cell a b n x y m r 0) as [_ E]; [exact Hr | rewrite S1; lia |];
        rewrite E end.
      apply mgrid_value_first.
Qed.

(** ** Loops that return and loops that raise *)

Lemma for_each_Forall2 {A B} (body : A -> result B) (xs : list A) (ys : list B) :
  for_each body xs = Ok ys -> Forall2 (fun x y => body x = Ok y) xs ys.
Proof.
  revert ys; induction xs as [|x xs IH]; simpl; intros ys Hrun.
  - inversion Hrun; constructor.
  - destruct (body x) as [y|e] eqn:Hy; simpl in Hrun; [|discriminate].
    destruct (for_each body xs) as [ys'|e]; simpl in Hrun; [|discriminate].
    inversion Hrun; subst. constructor; [exact Hy | apply IH; reflexivity].
Qed.

Lemma for_each_returns {A B} (body : A -> result B) (xs : list A) :
  (forall x, In x xs -> exists y, body x = Ok y) ->
  exists ys, for_each body xs = Ok ys.
Proof.
  induction xs as [|x xs IH]; simpl; intros Hbody.
  - exists []; reflexivity.
  - destruct (Hbody x (or_introl eq_refl)) as [y Hy].
    destruct IH as [ys Hys]; [intros z Hz; apply Hbody; right; exact Hz|].
    exists (y :: ys); rewrite Hy, Hys; reflexivity.
Qed.

Lemma for_each_raises {A B} (body : A -> result B) (xs : list A) (e : PyErr) :
  (forall x, In x xs -> (exists y, body x = Ok y) \/ body x = Raise e) ->
  (exists x, In x xs /\ body x = Raise e) ->
  for_each body xs = Raise e.
Proof.
  induction xs as [|x xs IH]; simpl; intros Hall [x0 [Hin Hx0]]; [contradiction|].
  destruct (Hall x (or_introl eq_refl)) as [[y Hy]|Hr].
  - rewrite Hy; simpl.
    rewrite IH; [reflexivity | intros z Hz; apply Hall; right; exact Hz |].
    destruct Hin as [E|Hin]; [subst; congruence | exists x0; split; assumption].
  - rewrite Hr; reflexivity.
Qed.

Lemma py_min_spec (xs : list Q) (m : Q) :
  py_min xs = Ok m -> In m xs /\ Forall (fun y => m <= y) xs.
Proof.
  destruct xs as [|x xs]; simpl; intros E; [discriminate|].
  inversion E; subst; apply least_spec.
Qed.

Lemma py_max_spec (xs : list Q) (m : Q) :
  py_max xs = Ok m -> In m xs /\ Forall (fun y => y <= m) xs.
Proof.
  destruct xs as [|x xs]; simpl; intros E; [discriminate|].
  inversion E; subst; apply greatest_spec.
Qed.

Lemma in_concat_nth {A} (a : list (list A)) (j i : nat) (row : list A) (y : A) :
  nth_error a j = Some row -> nth_error row i = Some y -> In y (List.concat a).
Proof.
  intros Hrow Hy. apply in_concat.
  exists row; split; [eapply nth_error_In; eassumption | eapply nth_error_In; eassumption].
Qed.

(** ** What read_data guarantees *)

(** X4: when the data phase of [main] returns, the velocity raster has the
    shape (LENGTH, WIDTH) of the metadata, every time-series raster has the
    shape of the velocity raster, there is at least one date and at least
    one valid pixel, and the masked time series has one row per date, each
    with one value per valid pixel, as many as there are velocities and
    coordinates. *)
Theorem read_data_shapes (inps : Inputs) (d : Data) :
  read_data inps = Ok d ->
  shape (vel_data inps) =
    repeat (mgrid_size (WIDTH (metadata inps))) (mgrid_size (LENGTH (metadata inps))) /\
  Forall (fun a => shape a = shape (vel_data inps)) (ts_data inps) /\
  List.length (ts d) = List.length (ts_data inps) /\
  (0 < List.length (ts d))%nat /\
  (0 < List.length (vel d))%nat /\
  List.length (coords d) = List.length (vel d) /\
  Forall (fun row => List.length row = List.length (vel d)) (ts d).
Proof.
  intros Hread.
  destruct (read_data_inv _ _ Hread)
    as (_ & Hvel & Hts & Hmin & _ & _ & _ & lats & lons & Hlat & _ & _).
  destruct (coords_length _ _ Hread) as [Hc Hv].
  pose proof (for_each_Forall2 _ _ _ Hts) as Hrows.
  assert (Hshape : Forall (fun a => shape a = shape (vel_data inps)) (ts_data inps)).
  { clear - Hrows. induction Hrows as [|a row as' rows Ha _ IH]; constructor; [|exact IH].
    run_step Ha sel Hsel.
    apply bool_index_length in Hsel; destruct Hsel as (E & _).
    rewrite E; apply valid_mask_shape. }
  assert (Hlens : Forall (fun row => List.length row = List.length (vel d)) (ts d)).
  { rewrite Hv. clear - Hrows. induction Hrows as [|a row as' rows Ha _ IH]; constructor; [|exact IH].
    run_step Ha sel Hsel. inversion Ha; subst.
    apply bool_index_length in Hsel; destruct Hsel as (_ & _ & L).
    rewrite length_map, L; apply valid_count. }
  assert (Hcells : List.concat (ts d) <> []).
  { unfold np_min in Hmin. destruct (List.concat (ts d)); [discriminate | discriminate]. }
  repeat split.
  - apply bool_index_length in Hlat; destruct Hlat as (E & _).
    rewrite valid_mask_shape in E. rewrite <- E. unfold get_lat_lon; cbv zeta.
    match goal with |- shape (fst (mgrid2 ?a ?b ?n ?x ?y ?m)) = _ =>
      destruct (mgrid2_shape a b n x y m) as [S _]; exact S end.
  - exact Hshape.
  - apply (for_each_length _ _ _ Hts).
  - destruct (ts d); [exfalso; apply Hcells; reflexivity | simpl; lia].
  - destruct (vel d) as [|v vs]; [|simpl; lia].
    exfalso; apply Hcells. clear - Hlens.
    induction Hlens as [|row rows Hr _ IH]; [reflexivity|].
    simpl in *. destruct row; [exact IH | discriminate Hr].
  - rewrite Hc, Hv; reflexivity.
  - exact Hlens.
Qed.

Lemma process_values_record (depth : nat) (norm : Normalize) :
  process_values depth norm =
  process_values depth {| vmin := vmin norm; vmax := vmax norm |}.
Proof. destruct norm; reflexivity. Qed.

(** X5: without [--vlim] the colour limits are the smallest and the largest
    velocity; the colorbar leaves limits that contain them, so the
    normalisation of every velocity of the run returns, and returns a value
    of [0, 1]; when all velocities are equal, and zero or not of negligible
    magnitude, the colorbar widens the limits around them and the value is
    1/2. *)
Theorem data_limits_normalize_into_unit (inps : Inputs) (d : Data) (v : Q) :
  read_data inps = Ok d ->
  vlim inps = None ->
  In v (vel d) ->
  vmin (norm d) <= vmax (norm d) /\
  exists n x,
    process_values callback_depth (norm d) = Ok n /\
    vmin n <= vmin (norm d) /\ vmax (norm d) <= vmax n /\
    Normalize_call n v = Ok x /\ 0 <= x /\ x <= 1 /\
    (vmin (norm d) == vmax (norm d) ->
     vmin (norm d) == 0 \/ magnitude_floor <= Qabs (vmin (norm d)) ->
     x == 1 # 2).
Proof.
  intros Hread Hnone Hin.
  destruct (read_data_inv _ _ Hread) as (_ & _ & _ & _ & _ & Hlim & _).
  rewrite Hnone in Hlim; destruct Hlim as [Hlo Hhi].
  destruct (py_min_spec _ _ Hlo) as [_ Lo].
  destruct (py_max_spec _ _ Hhi) as [_ Hi].
  rewrite Forall_forall in Lo, Hi.
  pose proof (Lo v Hin) as Hlv. pose proof (Hi v Hin) as Hvh.
  rewrite (process_values_record callback_depth (norm d)).
  set (lo := vmin (norm d)) in *. set (hi := vmax (norm d)) in *.
  clearbody lo hi.
  assert (Hle : lo <= hi) by (eapply Qle_trans; eassumption).
  split; [exact Hle|].
  destruct (process_values_ordered 98 lo hi Hle)
    as (n & Hn & Hp & Hnlo & Hnhi & _ & Heq & Hzero).
  pose proof (proper_lt _ _ Hp) as Hlt.
  exists n, ((v - vmin n) / (vmax n - vmin n)).
  split; [exact Hn|]. split; [exact Hnlo|]. split; [exact Hnhi|].
  assert (Hcall : Normalize_call n v = Ok ((v - vmin n) / (vmax n - vmin n))).
  { destruct n as [a b]; apply Normalize_call_increasing; exact Hlt. }
  split; [exact Hcall|].
  assert (Hw : 0 < vmax n - vmin n) by lra.
  split.
  { setoid_replace 0 with (0 / (vmax n - vmin n)) by (unfold Qdiv; ring).
    apply scale_le; [exact Hw | lra]. }
  split.
  { setoid_replace 1 with ((vmax n - vmin n) / (vmax n - vmin n)) by (field; lra).
    apply scale_le; [exact Hw | lra]. }
  intros Hsame [Hz|Hmag].
  - assert (Hz' : hi == 0) by lra.
    rewrite (Hzero Hz Hz'); cbn [vmin vmax].
    assert (Hv0 : v == 0) by lra.
    rewrite Hv0; reflexivity.
  - rewrite (Heq Hsame Hmag); cbn [vmin vmax].
    pose proof magnitude_floor_small as [F0 _].
    assert (Hv0 : v == lo) by lra.
    assert (Ha : Qabs hi == Qabs lo) by (rewrite Hsame; reflexivity).
    rewrite Hv0, Ha, <- Hsame. unfold expander. field.
    intros E. lra.
Qed.

(** X6: every displacement that a chart can show lies within the shared
    value range: each cell of the masked time series is between [ts_min] and
    [ts_max], and [ts_min <= ts_max]. *)
Theorem displacements_within_range (inps : Inputs) (d : Data) :
  read_data inps = Ok d ->
  ts_min d <= ts_max d /\
  forall j i row y,
    nth_error (ts d) j = Some row -> nth_error row i = Some y ->
    ts_min d <= y /\ y <= ts_max d.
Proof.
  intros Hread.
  destruct (read_data_inv _ _ Hread) as (_ & _ & _ & Hmin & Hmax & _).
  destruct (np_min_spec _ _ Hmin) as [Imin Lmin].
  destruct (np_max_spec _ _ Hmax) as [_ Lmax].
  rewrite Forall_forall in Lmin, Lmax.
  split; [apply Lmax; exact Imin|].
  intros j i row y Hrow Hy.
  pose proof (in_concat_nth _ _ _ _ _ Hrow Hy) as Hin.
  split; [apply Lmin | apply Lmax]; exact Hin.
Qed.

(** X7: the selection of the velocity raster by its own mask never fails
    and holds no NaN: it is the list of the numbers of the raster in
    row-major order, as many as the mask has true cells. *)
Theorem masked_velocity_has_no_nan (v : Raster (option Q)) :
  exists sel,
    bool_index v (valid_mask v) = Ok sel /\
    Forall (fun c => np_isnan c = false) sel /\
    sel = map Some (select_valid v) /\
    List.length sel = count_occ bool_dec (List.concat (valid_mask v)) true.
Proof.
  exists (map Some (select_valid v)).
  split; [apply select_valid_bool_index|].
  split; [apply Forall_forall; intros c Hc; apply in_map_iff in Hc;
          destruct Hc as (q & <- & _); reflexivity|].
  split; [reflexivity|].
  rewrite length_map, valid_count; reflexivity.
Qed.

(** ** Whole runs *)

Lemma py_range_in (n step i : nat) :
  (0 < step)%nat -> In i (py_range 0 n step) -> (i < n)%nat.
Proof.
  intros Hs Hin; unfold py_range in Hin.
  apply in_map_iff in Hin; destruct Hin as (k & <- & Hk).
  apply in_seq in Hk.
  destruct (range_length_bounds n step Hs) as (Hlo & _ & Hz & _).
  destruct (Nat.eq_dec n 0) as [E|Hn]; [rewrite (Hz E) in Hk; lia|].
  destruct Hlo as [Hlo|E]; [|contradiction]. nia.
Qed.

Lemma masked_rows (inps : Inputs) (d : Data) :
  read_data inps = Ok d ->
  List.length (ts d) = List.length (ts_data inps) /\
  Forall (fun row => List.length row = List.length (coords d)) (ts d) /\
  List.length (vel d) = List.length (coords d) /\
  (0 < List.length (coords d))%nat.
Proof.
  intros Hread.
  destruct (read_data_inv _ _ Hread) as (_ & _ & Hts & Hmin & _).
  destruct (coords_length _ _ Hread) as [Hc Hv].
  pose proof (for_each_Forall2 _ _ _ Hts) as Hrows.
  assert (Hlens : Forall (fun row => List.length row = List.length (coords d)) (ts d)).
  { rewrite Hc. clear - Hrows.
    induction Hrows as [|a row as' rows Ha _ IH]; constructor; [|exact IH].
    run_step Ha sel Hsel. inversion Ha; subst.
    apply bool_index_length in Hsel; destruct Hsel as (_ & _ & L).
    rewrite length_map, L; apply valid_count. }
  repeat split.
  - apply (for_each_length _ _ _ Hts).
  - exact Hlens.
  - rewrite Hc, Hv; reflexivity.
  - destruct (coords d) as [|c cs]; [|simpl; lia].
    exfalso. unfold np_min in Hmin.
    assert (E : List.concat (ts d) = []).
    { clear - Hlens. induction Hlens as [|row rows Hr _ IH]; [reflexivity|].
      simpl in *. destruct row; [exact IH | discriminate Hr]. }
    rewrite E in Hmin; discriminate Hmin.
Qed.

Lemma kml_color_returns (rgba : RGBA) :
  forallb in_unit [alpha rgba; blue rgba; green rgba; red rgba] = true ->
  exists hex, kml_color rgba = Ok hex.
Proof.
  intros Hunit; unfold kml_color, to_hex, to_rgba.
  rewrite Hunit; simpl. eexists; reflexivity.
Qed.

Lemma Normalize_call_returns (n : Normalize) (v : Q) :
  vmin n <= vmax n -> exists x, Normalize_call n v = Ok x.
Proof.
  intros Hle; unfold Normalize_call.
  destruct (Qeq_bool (vmin n) (vmax n)); [eexists; reflexivity|].
  destruct (Qcompare_spec (vmin n) (vmax n)) as [E|L|G];
    try (eexists; reflexivity).
  exfalso; apply (Qlt_irrefl (vmax n)); eapply Qlt_le_trans; eassumption.
Qed.

Section Runs.

Context {P : Platform}.

Lemma list_get_returns {A} (xs : list A) (i : nat) :
  (i < List.length xs)%nat -> exists x, list_get xs i = Ok x /\ nth_error xs i = Some x.
Proof.
  intros Hi; unfold list_get.
  destruct (nth_error xs i) as [x|] eqn:E; [exists x; split; reflexivity|].
  apply nth_error_None in E; lia.
Qed.

Lemma placemark_returns (inps : Inputs) (d : Data) (n : Normalize) (cm : Colormap)
      (i : nat) :
  read_data inps = Ok d ->
  (List.length (times inps) <= List.length (ts_data inps))%nat ->
  registered (cmap d) = Some cm ->
  (forall x, forallb in_unit [alpha (cm x); blue (cm x); green (cm x); red (cm x)] = true) ->
  vmin n <= vmax n ->
  (i < List.length (coords d))%nat ->
  exists pm, placemark (set_norm d n) i = Ok pm.
Proof.
  intros Hread Hdates Hreg Hunit Hle Hi.
  destruct (masked_rows _ _ Hread) as (Hts & Hrows & Hvel & _).
  destruct (read_data_inv _ _ Hread) as (Ed & _).
  unfold placemark; cbn [set_norm coords vel cmap norm ts_min ts_max].
  destruct (list_get_returns (coords d) i Hi) as (c & Hc & _); rewrite Hc; cbn [rbind].
  destruct (list_get_returns (vel d) i) as (v & Hv & _); [lia|]; rewrite Hv; cbn [rbind].
  unfold get_cmap; rewrite Hreg; cbn [rbind].
  destruct (Normalize_call_returns n v Hle) as [x Hx]; rewrite Hx; cbn [rbind].
  destruct (kml_color_returns (cm x) (Hunit x)) as [hex Hhex]; rewrite Hhex; cbn [rbind].
  assert (Hjs : exists rows, js_rows (set_norm d n) i = Ok rows).
  { unfold js_rows; cbn [set_norm dates ts]. apply for_each_returns; intros j Hj.
    apply py_range_in in Hj; [|lia].
    destruct (list_get_returns (dates d) j Hj) as (date & Hdate & _); rewrite Hdate; cbn [rbind].
    rewrite Ed in Hj.
    destruct (list_get_returns (ts d) j) as (row & Hrow & Hnth); [lia|].
    rewrite Hrow; cbn [rbind].
    rewrite Forall_forall in Hrows.
    pose proof (Hrows row (nth_error_In _ _ Hnth)) as Hlen.
    destruct (list_get_returns row i) as (y & Hy & _); [lia|].
    rewrite Hy; cbn [rbind]. eexists; reflexivity. }
  destruct Hjs as [rows Hjs]; rewrite Hjs; cbn [rbind].
  eexists; reflexivity.
Qed.

(** X8: a run returns as soon as its input is consistent: the data phase
    returns, there are at least as many time-series rasters as dates, the
    colormap name is registered and the colormap gives components within
    0-1.  The colour limits may be in any order, or equal: the colorbar
    leaves limits in strict order, and the loop normalises with them.  The
    run then writes the KML file. *)
Theorem run_returns (inps : Inputs) (d : Data) (cm : Colormap) :
  read_data inps = Ok d ->
  (List.length (times inps) <= List.length (ts_data inps))%nat ->
  registered (cmap d) = Some cm ->
  (forall x, forallb in_unit [alpha (cm x); blue (cm x); green (cm x); red (cm x)] = true) ->
  exists n kml,
    ColorbarBase (cmap d) (norm d) = Ok n /\
    vmin n < vmax n /\
    kml_document inps (set_norm d n) = Ok kml /\
    snd (run inps) = Ok tt /\
    In (WriteFile (kml_file inps) (etree_tostring kml)) (fst (run inps)).
Proof.
  intros Hread Hdates Hreg Hunit.
  destruct (process_values_returns 97 (norm d)) as (n & Hn & Hp).
  pose proof (proper_lt _ _ Hp) as Hlt.
  assert (Hbar : ColorbarBase (cmap d) (norm d) = Ok n).
  { unfold ColorbarBase, get_cmap; rewrite Hreg; exact Hn. }
  assert (Hpms : exists pms, placemarks (set_norm d n) = Ok pms).
  { unfold placemarks. apply for_each_returns; intros i Hi.
    apply py_range_in in Hi; [|lia].
    apply (placemark_returns inps d n cm i); try assumption.
    apply Qlt_le_weak; exact Hlt. }
  destruct Hpms as [pms Hpms].
  exists n, (node "kml" [node "Document" (legend_overlay inps :: pms)]).
  assert (Hdoc : kml_document inps (set_norm d n) =
                 Ok (node "kml" [node "Document" (legend_overlay inps :: pms)])).
  { unfold kml_document; rewrite Hpms; reflexivity. }
  split; [exact Hbar|]. split; [exact Hlt|]. split; [exact Hdoc|].
  unfold run, main, bind, lift; rewrite Hread.
  unfold colorbar, bind, lift; rewrite Hbar.
  unfold ret; cbn [emit app]; cbv beta iota.
  rewrite Hdoc.
  unfold export, bind, emit; cbn [app fst snd].
  split; [reflexivity|].
  do 8 right; left; reflexivity.
Qed.

(** X14: whatever the colour limits are, the norm that the colorbar leaves
    has its limits in strict order, so the normalisation in the loop never
    raises, for any velocity: limits given in the wrong order or equal
    limits do not stop a run. *)
Theorem loop_normalisation_returns (d : Data) (n : Normalize) (v : Q) :
  ColorbarBase (cmap d) (norm d) = Ok n ->
  vmin n < vmax n /\
  Normalize_call n v = Ok ((v - vmin n) / (vmax n - vmin n)).
Proof.
  intros Hbar; unfold ColorbarBase in Hbar.
  destruct (get_cmap (cmap d)) as [cm|e]; [|discriminate Hbar].
  destruct (process_values_returns 97 (norm d)) as (n' & Hn & Hp).
  change (process_values callback_depth (norm d) = Ok n) in Hbar.
  change (process_values callback_depth (norm d) = Ok n') in Hn.
  rewrite Hbar in Hn; inversion Hn; subst n'.
  pose proof (proper_lt _ _ Hp) as Hlt.
  split; [exact Hlt|].
  destruct n as [a b]; apply Normalize_call_increasing; exact Hlt.
Qed.

End Runs.

(** ** The log of a run *)

Section Logs.

Context {P : Platform}.

(** X9: a run that raises has written neither the KML file nor the
    archive and has run no shell command: its log is empty, or it holds the
    saved colorbar image and the two messages around it, and nothing else.
    The image of a run that raises in the loop is not removed. *)
Theorem failed_run_log (inps : Inputs) (e : PyErr) :
  snd (run inps) = Raise e ->
  fst (run inps) = [] \/
  fst (run inps) =
    [ Print ("writing " ++ cbar_png_file inps);
      SaveFig (cbar_png_file inps);
      Print "Creating KML file. This may take some time." ].
Proof.
  unfold run, main, bind, lift.
  destruct (read_data inps) as [d|e1]; [|intros _; left; reflexivity].
  unfold colorbar, bind, lift.
  destruct (ColorbarBase (cmap d) (norm d)) as [n|e2]; [|intros _; left; reflexivity].
  unfold ret; cbn [emit app]; cbv beta iota.
  destruct (kml_document inps (set_norm d n)) as [kml|e3];
    [|intros _; right; reflexivity].
  unfold export, bind, emit; cbn [app fst snd].
  intros Habs; discriminate Habs.
Qed.

(** X10: a run that returns has logged, in this order: the colorbar image,
    the copies of the two assets, the KML file holding the serialised
    document, the archive of the four loose files and their removal; the
    files removed are exactly the files archived, and the archive itself is
    kept.  The document is the one built with the norm that the colorbar
    has left. *)
Theorem returned_run_log (inps : Inputs) :
  snd (run inps) = Ok tt ->
  exists d n kml,
    read_data inps = Ok d /\
    ColorbarBase (cmap d) (norm d) = Ok n /\
    kml_document inps (set_norm d n) = Ok kml /\
    let files := kml_file inps ++ " " ++ cbar_png_file inps ++ " " ++
                 dygraph_file ++ " " ++ dot_file in
    fst (run inps) =
      [ Print ("writing " ++ cbar_png_file inps);
        SaveFig (cbar_png_file inps);
        Print "Creating KML file. This may take some time.";
        Print ("copying " ++ dot_file ++ " for reference." ++ nl);
        System ("cp " ++ (script_dir inps ++ "/utils/" ++ dot_file) ++ " " ++ dot_file);
        Print ("copying " ++ dygraph_file ++ " for reference" ++ nl);
        System ("cp " ++ (script_dir inps ++ "/utils/" ++ dygraph_file) ++ " " ++
                dygraph_file);
        Print ("writing " ++ kml_file inps);
        WriteFile (kml_file inps) (etree_tostring kml);
        Print ("writing " ++ kmz_file inps ++ nl ++ "zip " ++ kmz_file inps ++ " " ++ files);
        System ("zip " ++ kmz_file inps ++ " " ++ files);
        Print ("rm " ++ files);
        System ("rm " ++ files) ].
Proof.
  unfold run, main, bind, lift.
  destruct (read_data inps) as [d|e1] eqn:Hread; [|intros Habs; discriminate Habs].
  unfold colorbar, bind, lift.
  destruct (ColorbarBase (cmap d) (norm d)) as [n|e2] eqn:Hbar;
    [|intros Habs; discriminate Habs].
  unfold ret; cbn [emit app]; cbv beta iota.
  destruct (kml_document inps (set_norm d n)) as [kml|e3] eqn:Hdoc;
    [|intros Habs; discriminate Habs].
  intros _. exists d, n, kml.
  split; [reflexivity|]. split; [exact Hbar|]. split; [exact Hdoc|].
  unfold export, bind, emit; cbn [app fst snd].
  reflexivity.
Qed.

(** X11: in the document of a run the colorbar overlay comes first and the
    placemarks follow in the order of the loop; there is at least one
    placemark, and the placemarks found in the document are exactly the ones
    the loop built.  This holds whatever norm the colorbar leaves. *)
Theorem overlay_then_placemarks (inps : Inputs) (d : Data) (n : Normalize)
        (kml : Xml) :
  read_data inps = Ok d ->
  kml_document inps (set_norm d n) = Ok kml ->
  exists pms,
    placemarks (set_norm d n) = Ok pms /\
    pms <> [] /\
    xml_children kml = [node "Document" (legend_overlay inps :: pms)] /\
    xml_tag (legend_overlay inps) = "ScreenOverlay" /\
    Forall (fun pm => xml_tag pm = "Placemark") pms /\
    placemarks_of kml = pms.
Proof.
  intros Hread Hdoc; unfold kml_document in Hdoc.
  run_step Hdoc pms Hpms. inversion Hdoc; subst kml; clear Hdoc.
  assert (Htags : Forall (fun pm => xml_tag pm = "Placemark") pms).
  { apply Forall_forall; intros pm Hin.
    apply In_nth_error in Hin; destruct Hin as [k Hk].
    destruct (placemarks_inv _ _ Hpms) as [_ Hnth].
    destruct (Hnth k pm Hk) as [_ Hpm].
    destruct (placemark_inv _ _ _ Hpm)
      as (lat & lon & v & cm & x & hex & rows & _ & _ & _ & _ & _ & _ & E).
    rewrite E; reflexivity. }
  exists pms.
  split; [reflexivity|].
  split.
  { destruct (placemarks_inv _ _ Hpms) as [Hlen _].
    cbn [set_norm coords] in Hlen.
    destruct (masked_rows _ _ Hread) as (_ & _ & _ & Hpos).
    destruct (range_length_bounds (List.length (coords d)) 10) as (_ & _ & _ & Hp); [lia|].
    intros E; rewrite E in Hlen; simpl in Hlen. specialize (Hp Hpos). lia. }
  split; [reflexivity|]. split; [reflexivity|]. split; [exact Htags|].
  unfold placemarks_of; simpl. rewrite app_nil_r.
  clear - Htags. induction Htags as [|pm pms Hpm _ IH]; [reflexivity|].
  simpl; rewrite Hpm; simpl; rewrite IH; reflexivity.
Qed.

(** X12: a time-series raster whose shape is not the shape of the velocity
    raster stops the run at the masking, with IndexError and an empty log. *)
Theorem ragged_time_series_fails (inps : Inputs) :
  (exists a, In a (ts_data inps) /\ shape a <> shape (vel_data inps)) ->
  run inps = ([], Raise (IndexError "boolean index did not match indexed array")).
Proof.
  intros Hbad.
  assert (Hts : for_each
                  (fun a => row <- bool_index a (valid_mask (vel_data inps)) ;;
                            Ok (map to_cm row)) (ts_data inps)
                = Raise (IndexError "boolean index did not match indexed array")).
  { apply for_each_raises.
    - intros a _. unfold bool_index.
      destruct (list_eq_dec Nat.eq_dec (shape a) (shape (valid_mask (vel_data inps))));
        [left; eexists; reflexivity | right; reflexivity].
    - destruct Hbad as (a & Hin & Hne). exists a; split; [exact Hin|].
      unfold bool_index.
      destruct (list_eq_dec Nat.eq_dec (shape a) (shape (valid_mask (vel_data inps))))
        as [E|_]; [|reflexivity].
      exfalso; apply Hne; rewrite E; apply valid_mask_shape. }
  unfold run, main, bind, lift, read_data.
  rewrite Hts; reflexivity.
Qed.

(** X13: metadata whose LENGTH and WIDTH are not the shape of the velocity
    raster stop the run in the data phase, before anything is written. *)
Theorem wrong_dimensions_fail (inps : Inputs) :
  shape (vel_data inps) <>
    repeat (mgrid_size (WIDTH (metadata inps))) (mgrid_size (LENGTH (metadata inps))) ->
  exists e, run inps = ([], Raise e).
Proof.
  intros Hne.
  unfold run, main, bind, lift.
  destruct (read_data inps) as [d|e] eqn:Hread; [|exists e; reflexivity].
  exfalso; apply Hne.
  destruct (read_data_inv _ _ Hread)
    as (_ & _ & _ & _ & _ & _ & _ & lats & lons & Hlat & _ & _).
  apply bool_index_length in Hlat; destruct Hlat as (E & _).
  rewrite valid_mask_shape in E. rewrite <- E. unfold get_lat_lon; cbv zeta.
  match goal with |- shape (fst (mgrid2 ?a ?b ?n ?x ?y ?m)) = _ =>
    destruct (mgrid2_shape a b n x y m) as [S _]; exact S end.
Qed.

End Logs.

(** ** The further properties at concrete inputs *)

Lemma clip01_in_unit (x : Q) : 0 <= clip01 x /\ clip01 x <= 1.
Proof.
  unfold clip01.
  destruct (Qle_bool x 0) eqn:E0; [split; [apply Qle_refl | discriminate]|].
  destruct (Qle_bool 1 x) eqn:E1; [split; [discriminate | apply Qle_refl]|].
  assert (H0 : ~ x <= 0) by (rewrite <- Qle_bool_iff, E0; discriminate).
  assert (H1 : ~ 1 <= x) by (rewrite <- Qle_bool_iff, E1; discriminate).
  split; lra.
Qed.

Lemma ramp_in_unit (x : Q) :
  forallb in_unit [alpha (ramp x); blue (ramp x); green (ramp x); red (ramp x)] = true.
Proof.
  destruct (clip01_in_unit x) as [H0 H1].
  assert (Hc : in_unit (clip01 x) = true) by (apply in_unit_spec; split; assumption).
  assert (Hb : in_unit (1 - clip01 x) = true) by (apply in_unit_spec; split; lra).
  simpl; rewrite Hc, Hb; reflexivity.
Qed.

Lemma get_lat_lon_rows_and_columns_witness :
  cell_at (fst (get_lat_lon grid3_meta)) 1 0 = cell_at (fst (get_lat_lon grid3_meta)) 1 2 /\
  cell_at (snd (get_lat_lon grid3_meta)) 1 0 = cell_at (snd (get_lat_lon grid3_meta)) 2 0.
Proof.
  apply (get_lat_lon_rows_and_columns grid3_meta 1 2 0 2); vm_compute; lia.
Defined.

Lemma get_lat_lon_spacing_witness :
  cell_at (fst (get_lat_lon grid3_meta)) 1 0 - cell_at (fst (get_lat_lon grid3_meta)) 0 0 ==
    -1 * inject_Z 3 / inject_Z (3 - 1) /\
  cell_at (snd (get_lat_lon grid3_meta)) 0 1 - cell_at (snd (get_lat_lon grid3_meta)) 0 0 ==
    1 * inject_Z 3 / inject_Z (3 - 1).
Proof.
  apply (get_lat_lon_spacing grid3_meta 0 0); vm_compute; try reflexivity; lia.
Defined.

Lemma get_lat_lon_single_line_witness :
  Z.abs (LENGTH row_meta) = 1%Z /\
  shape (fst (get_lat_lon row_meta)) = [3%nat] /\
  cell_at (fst (get_lat_lon row_meta)) 0 2 == 10.
Proof.
  assert (H1 : Z.abs (LENGTH row_meta) = 1%Z) by reflexivity.
  destruct (get_lat_lon_single_line row_meta) as [Hrow _].
  destruct (Hrow H1) as [Hshape Hcell].
  split; [exact H1|]. split; [exact Hshape|].
  apply (Hcell 2%nat). vm_compute; lia.
Defined.

Lemma read_data_shapes_witness :
  read_data grid3 = Ok grid3_data /\
  shape (vel_data grid3) = [3; 3; 3]%nat /\
  List.length (vel grid3_data) = 8%nat /\
  Forall (fun row => List.length row = List.length (vel grid3_data)) (ts grid3_data).
Proof.
  assert (Hread : read_data grid3 = Ok grid3_data) by (vm_compute; reflexivity).
  destruct (read_data_shapes grid3 grid3_data Hread) as (Hs & _ & _ & _ & _ & _ & Hrows).
  split; [exact Hread|]. split; [exact Hs|]. split; [reflexivity | exact Hrows].
Defined.

Lemma data_limits_normalize_into_unit_witness :
  read_data grid3 = Ok grid3_data /\ vlim grid3 = None /\
  In (to_cm (1 # 100)) (vel grid3_data) /\
  exists n x,
    process_values callback_depth (norm grid3_data) = Ok n /\
    Normalize_call n (to_cm (1 # 100)) = Ok x /\ 0 <= x /\ x <= 1.
Proof.
  assert (Hread : read_data grid3 = Ok grid3_data) by (vm_compute; reflexivity).
  assert (Hnone : vlim grid3 = None) by reflexivity.
  assert (Hin : In (to_cm (1 # 100)) (vel grid3_data)) by (left; reflexivity).
  split; [exact Hread|]. split; [exact Hnone|]. split; [exact Hin|].
  destruct (data_limits_normalize_into_unit grid3 grid3_data _ Hread Hnone Hin)
    as (_ & n & x & Hn & _ & _ & Hx & H0 & H1 & _).
  exists n, x; repeat split; assumption.
Defined.

Lemma displacements_within_range_witness :
  read_data grid3 = Ok grid3_data /\ ts_min grid3_data <= ts_max grid3_data.
Proof.
  assert (Hread : read_data grid3 = Ok grid3_data) by (vm_compute; reflexivity).
  split; [exact Hread|].
  apply (displacements_within_range grid3 grid3_data Hread).
Defined.

Lemma run_returns_witness :
  read_data grid5 = Ok grid5_data /\
  ramp_only (cmap grid5_data) = Some ramp /\
  snd (@run plain grid5) = Ok tt.
Proof.
  assert (Hread : read_data grid5 = Ok grid5_data) by (vm_compute; reflexivity).
  assert (Hreg : @registered plain (cmap grid5_data) = Some ramp) by reflexivity.
  assert (Hdates : (List.length (times grid5) <= List.length (ts_data grid5))%nat)
    by (vm_compute; lia).
  destruct (@run_returns plain grid5 grid5_data ramp Hread Hdates Hreg ramp_in_unit)
    as (n & kml & _ & _ & _ & Hrun & _).
  split; [exact Hread|]. split; [exact Hreg | exact Hrun].
Defined.

Lemma loop_normalisation_returns_witness :
  @ColorbarBase plain (cmap grid3_data) {| vmin := 10; vmax := 0 |}
    = Ok {| vmin := - (1 # 10); vmax := 10 |} /\
  Normalize_call {| vmin := - (1 # 10); vmax := 10 |} 2
    = Ok ((2 - - (1 # 10)) / (10 - - (1 # 10))).
Proof.
  assert (Hbar : @ColorbarBase plain (cmap (set_norm grid3_data {| vmin := 10; vmax := 0 |}))
                   (norm (set_norm grid3_data {| vmin := 10; vmax := 0 |}))
                 = Ok {| vmin := - (1 # 10); vmax := 10 |})
    by (vm_compute; reflexivity).
  split; [exact Hbar|].
  apply (@loop_normalisation_returns plain _ _ 2 Hbar).
Defined.

Lemma failed_run_log_witness :
  snd (@run plain grid3_unknown) =
    Raise (ValueError "Colormap no_such_map is not recognized") /\
  (fst (@run plain grid3_unknown) = [] \/
   fst (@run plain grid3_unknown) =
     [ Print ("writing " ++ cbar_png_file grid3_unknown);
       SaveFig (cbar_png_file grid3_unknown);
       Print "Creating KML file. This may take some time." ]).
Proof.
  assert (Hfail : snd (@run plain grid3_unknown) =
                  Raise (ValueError "Colormap no_such_map is not recognized"))
    by (vm_compute; reflexivity).
  split; [exact Hfail|].
  apply (@failed_run_log plain grid3_unknown _ Hfail).
Defined.

Lemma returned_run_log_witness :
  snd (@run plain grid3) = Ok tt /\
  List.length (fst (@run plain grid3)) = 13%nat.
Proof.
  assert (Hok : snd (@run plain grid3) = Ok tt) by (vm_compute; reflexivity).
  split; [exact Hok|].
  destruct (@returned_run_log plain grid3 Hok) as (d & n & kml & _ & _ & _ & Hlog).
  rewrite Hlog; reflexivity.
Defined.

Lemma overlay_then_placemarks_witness :
  read_data grid3 = Ok grid3_data /\
  exists kml, @kml_document plain grid3 (set_norm grid3_data (norm grid3_data)) = Ok kml /\
              placemarks_of kml = grid3_placemarks.
Proof.
  assert (Hread : read_data grid3 = Ok grid3_data) by (vm_compute; reflexivity).
  split; [exact Hread|].
  destruct (@kml_document plain grid3 (set_norm grid3_data (norm grid3_data)))
    as [kml|e] eqn:Hdoc; [|vm_compute in Hdoc; discriminate Hdoc].
  exists kml; split; [reflexivity|].
  destruct (@overlay_then_placemarks plain grid3 grid3_data (norm grid3_data) kml
              Hread Hdoc)
    as (pms & Hpms & _ & _ & _ & _ & Hof).
  assert (Hpms' : @placemarks plain (set_norm grid3_data (norm grid3_data))
                  = Ok grid3_placemarks)
    by (vm_compute; reflexivity).
  rewrite Hof. rewrite Hpms' in Hpms. inversion Hpms; reflexivity.
Defined.

Lemma ragged_time_series_fails_witness :
  (exists a, In a (ts_data grid3_ragged) /\ shape a <> shape (vel_data grid3_ragged)) /\
  @run plain grid3_ragged =
    ([], Raise (IndexError "boolean index did not match indexed array")).
Proof.
  assert (Hbad : exists a, In a (ts_data grid3_ragged) /\
                           shape a <> shape (vel_data grid3_ragged)).
  { eexists; split; [right; left; reflexivity | vm_compute; discriminate]. }
  split; [exact Hbad|].
  apply (@ragged_time_series_fails plain grid3_ragged Hbad).
Defined.

Lemma wrong_dimensions_fail_witness :
  shape (vel_data grid3_two_rows) <>
    repeat (mgrid_size (WIDTH (metadata grid3_two_rows)))
           (mgrid_size (LENGTH (metadata grid3_two_rows))) /\
  exists e, @run plain grid3_two_rows = ([], Raise e).
Proof.
  assert (Hne : shape (vel_data grid3_two_rows) <>
                repeat (mgrid_size (WIDTH (metadata grid3_two_rows)))
                       (mgrid_size (LENGTH (metadata grid3_two_rows))))
    by (vm_compute; discriminate).
  split; [exact Hne|].
  apply (@wrong_dimensions_fail plain grid3_two_rows Hne).
Defined.
